(** * ScriptVisualTests: the script bridge of the game object

    A shallow embedding of the game-facing scriptable object
    ([GameScriptInterface]), of the [Game] operations it drives and of the
    per-frame script entry points ([Game::UpdateJS], [Game::RenderJS]),
    followed by the properties of the bridge.

    Conventions of the embedding.
    - C++ [float] and script numbers are modelled by the exact rational they
      denote ([float := Q]); rounding, infinities and NaN are outside the
      model.  [std::to_string] and the [%.Nf] / [{:.Nf}] conversions are the
      fixed-point printer [format_fixed].
    - [std::string] is [string] (a byte string; the source is UTF-8).
    - A statement sequence that reads or writes the process state is a
      computation in the monad [M], which threads the [World] and
      distinguishes a normal return, a [std::exception] in flight, an
      exception of another type in flight and the termination of the process
      by [ERROR_AND_DIE].
    - What lives in the engine (script runtime, input, renderer, random
      numbers) is either modelled from the specification, and marked so, or
      taken as the record [Engine] of arbitrary behaviours. *)

From Stdlib Require Import String Ascii List ZArith QArith Lia Bool DecimalString.
From ExtLib Require Import Structures.Monad Structures.MonadState Structures.MonadExc.
Import ListNotations.
Import MonadNotation.

#[local] Open Scope monad_scope.
#[local] Open Scope string_scope.
#[local] Open Scope Z_scope.

(** ** Numbers and their text *)

(** C++ [float]. *)
Definition float : Type := Q.
Bind Scope Q_scope with float.

Definition float_of_Z (n : Z) : float := inject_Z n.

(** [static_cast<int>] of a floating value: truncation toward zero. *)
Definition truncate (q : float) : Z := Z.quot (Qnum q) (Z.pos (Qden q)).

(** [std::to_string(int)] and the [%d] / [%zu] / [{}] conversions of an
    integer. *)
Definition string_of_Z (n : Z) : string := NilZero.string_of_int (Z.to_int n).

(** [|q| * 10^prec], rounded to the nearest integer, ties to even. *)
Definition scaled_round (prec : nat) (q : float) : Z :=
  let n := Z.abs (Qnum q) * 10 ^ Z.of_nat prec in
  let d := Z.pos (Qden q) in
  let fl := n / d in
  let r2 := 2 * (n mod d) in
  if r2 <? d then fl
  else if d <? r2 then fl + 1
  else if Z.even fl then fl else fl + 1.

Fixpoint zeros (n : nat) : string :=
  match n with
  | O => ""
  | S k => "0" ++ zeros k
  end.

Definition pad_left (width : nat) (s : string) : string :=
  zeros (width - String.length s) ++ s.

(** The [%.<prec>f] conversion: sign, integer part, then [prec] decimals. *)
Definition format_fixed (prec : nat) (q : float) : string :=
  let m := scaled_round prec q in
  let unit := 10 ^ Z.of_nat prec in
  let sign := if Qnum q <? 0 then "-" else "" in
  let frac :=
    match prec with
    | O => ""
    | S _ => "." ++ pad_left prec (string_of_Z (m mod unit))
    end in
  sign ++ string_of_Z (m / unit) ++ frac.

(** [std::to_string(float)] is [%f], six decimals. *)
Definition to_string (q : float) : string := format_fixed 6 q.

(** [haystack.find(needle) != npos]. *)
Fixpoint contains (needle haystack : string) : bool :=
  String.prefix needle haystack
  || match haystack with
     | EmptyString => false
     | String _ rest => contains needle rest
     end.

(** Comparison of two strings that ignores the case of ASCII letters. *)
Definition ascii_upper (c : ascii) : ascii :=
  let n := nat_of_ascii c in
  if ((97 <=? n) && (n <=? 122))%nat then ascii_of_nat (n - 32) else c.

Fixpoint string_upper (s : string) : string :=
  match s with
  | EmptyString => EmptyString
  | String c rest => String (ascii_upper c) (string_upper rest)
  end.

Definition eq_ignore_case (s t : string) : bool :=
  String.eqb (string_upper s) (string_upper t).

(** ** Engine value types *)

Record Vec3 : Type := mkVec3 { x : float; y : float; z : float }.

Definition Vec3_ZERO : Vec3 := mkVec3 0 0 0.

(** [Vec3::operator+]. *)
Definition Vec3_add (a b : Vec3) : Vec3 :=
  mkVec3 (x a + x b)%Q (y a + y b)%Q (z a + z b)%Q.

Record EulerAngles : Type :=
  mkEulerAngles { m_yawDegrees : float; m_pitchDegrees : float; m_rollDegrees : float }.

Definition EulerAngles_ZERO : EulerAngles := mkEulerAngles 0 0 0.

Record Rgba8 : Type := mkRgba8 { r : Z; g : Z; b : Z; a : Z }.

Definition Rgba8_WHITE : Rgba8 := mkRgba8 255 255 255 255.

(** [static_cast<unsigned char>(int)]. *)
Definition to_uchar (n : Z) : Z := n mod 256.

(** ** Values that cross the script boundary *)

(** Modelled from the spec: the engine's dynamically typed argument
    ([std::any] filled by the script runtime), which the repository only
    consumes: "a sum type (tagged variant over {int, float, string, bool,
    object-reference})".  [VNumber] is a script number (a double). *)
Inductive ScriptValue : Type :=
| VInt (n : Z)
| VNumber (q : float)
| VString (s : string)
| VBool (b : bool)
| VObject (handle : nat).

(** [ScriptArgs], a [std::vector<std::any>]. *)
Definition ScriptArgs : Type := list ScriptValue.

(** Modelled from the spec: the engine's [ScriptMethodResult], a "tagged
    union of {Success(optional string or bool payload), Error(message)}". *)
Inductive ScriptMethodResult : Type :=
| Success (result : option ScriptValue)
| Error (errorMessage : string).

(** The [success] member. *)
Definition success (res : ScriptMethodResult) : bool :=
  match res with
  | Success _ => true
  | Error _ => false
  end.

(** Modelled from the spec: the engine's [ScriptMethodInfo], a "static
    descriptor {name, human-readable description, ordered list of parameter
    type names, return type name}". *)
Record ScriptMethodInfo : Type := mkScriptMethodInfo {
  name : string;
  description : string;
  parameters : list string;
  returnType : string
}.

(** ** The native state *)

(** [Entity], the base of [Player] and [Prop]. *)
Record Entity : Type := mkEntity {
  m_position : Vec3;
  m_velocity : Vec3;
  m_orientation : EulerAngles;
  m_angularVelocity : EulerAngles;
  m_color : Rgba8
}.

(** The member initialisers of [Entity.hpp]. *)
Definition Entity_new : Entity :=
  mkEntity Vec3_ZERO Vec3_ZERO EulerAngles_ZERO EulerAngles_ZERO Rgba8_WHITE.

Definition Entity_set_position (p : Vec3) (e : Entity) : Entity :=
  mkEntity p (m_velocity e) (m_orientation e) (m_angularVelocity e) (m_color e).

Definition Entity_set_color (c : Rgba8) (e : Entity) : Entity :=
  mkEntity (m_position e) (m_velocity e) (m_orientation e) (m_angularVelocity e) c.

(** The vertex data of a prop is built by the engine's [AddVertsFor...]
    helpers; it is represented by the initialiser that produced it. *)
Inductive LocalVerts : Type := CubeVerts | SphereVerts | GridVerts.

(** [class Prop : public Entity] ([Prop] is reserved in Rocq). *)
Record Prop_ : Type := mkProp {
  prop_entity : Entity;
  m_vertexes : list LocalVerts;
  m_texture : option string
}.

(** [Prop::Prop(owner, texture)]. *)
Definition Prop_new (texture : option string) : Prop_ :=
  mkProp Entity_new [] texture.

Definition Prop_set_entity (e : Entity) (p : Prop_) : Prop_ :=
  mkProp e (m_vertexes p) (m_texture p).

Definition Prop_position (p : Prop_) : Vec3 := m_position (prop_entity p).

(** [Prop::InitializeLocalVertsForCube], [...ForSphere], [...ForGrid]: each
    appends to [m_vertexes]. *)
Definition InitializeLocalVerts (v : LocalVerts) (p : Prop_) : Prop_ :=
  mkProp (prop_entity p) (m_vertexes p ++ [v]) (m_texture p).

(** [class Player : public Entity]; its camera belongs to the renderer. *)
Record Player : Type := mkPlayer { player_entity : Entity }.

Definition Player_position (p : Player) : Vec3 := m_position (player_entity p).

Definition Player_set_position (pos : Vec3) (p : Player) : Player :=
  mkPlayer (Entity_set_position pos (player_entity p)).

Inductive eGameState : Type := ATTRACT | GAME.

(** The data members of [class Game] that the bridge reads and writes.
    [m_player] is a pointer: [None] is [nullptr]. *)
Record Game : Type := mkGame {
  m_player : option Player;
  m_props : list Prop_;
  m_gameState : eGameState;
  m_originalPlayerPosition : Vec3;
  m_cameraShakeActive : bool
}.

(** The part of the engine's [ScriptSubsystem] that [Game] inspects. *)
Record ScriptSubsystem : Type := mkScriptSubsystem {
  IsInitialized : bool;
  GetLastResult : string;
  HasError : bool;
  GetLastError : string
}.

(** The engine's [RandomNumberGenerator]: an arbitrary source of draws and
    the number of draws taken so far. *)
Record RandomNumberGenerator : Type := mkRng {
  rng_source : nat -> Z;
  rng_taken : nat
}.

Inductive eLogVerbosity : Type :=
| VerbosityLog | VerbosityDisplay | VerbosityWarning | VerbosityError.

(** One line written by [DAEMON_LOG]. *)
Record LogLine : Type := mkLogLine {
  log_category : string;
  log_verbosity : eLogVerbosity;
  log_message : string
}.

(** The process state: the globals of [GameCommon.hpp] and [App], the two
    clocks read by [Game::UpdateJS], and what has been written to the
    debugger output and to the log. *)
Record World : Type := mkWorld {
  g_game : Game;
  g_scriptSubsystem : option ScriptSubsystem;
  g_rng : RandomNumberGenerator;
  m_isQuitting : bool;
  gameClockDelta : float;
  systemClockDelta : float;
  debuggerOutput : list string;
  logOutput : list LogLine
}.

Definition set_game (gm : Game) (w : World) : World :=
  mkWorld gm (g_scriptSubsystem w) (g_rng w) (m_isQuitting w)
          (gameClockDelta w) (systemClockDelta w) (debuggerOutput w) (logOutput w).

Definition set_rng (rng : RandomNumberGenerator) (w : World) : World :=
  mkWorld (g_game w) (g_scriptSubsystem w) rng (m_isQuitting w)
          (gameClockDelta w) (systemClockDelta w) (debuggerOutput w) (logOutput w).

Definition set_isQuitting (q : bool) (w : World) : World :=
  mkWorld (g_game w) (g_scriptSubsystem w) (g_rng w) q
          (gameClockDelta w) (systemClockDelta w) (debuggerOutput w) (logOutput w).

Definition add_debuggerOutput (line : string) (w : World) : World :=
  mkWorld (g_game w) (g_scriptSubsystem w) (g_rng w) (m_isQuitting w)
          (gameClockDelta w) (systemClockDelta w) (debuggerOutput w ++ [line]) (logOutput w).

Definition add_logOutput (line : LogLine) (w : World) : World :=
  mkWorld (g_game w) (g_scriptSubsystem w) (g_rng w) (m_isQuitting w)
          (gameClockDelta w) (systemClockDelta w) (debuggerOutput w) (logOutput w ++ [line]).

Definition Game_set_props (ps : list Prop_) (gm : Game) : Game :=
  mkGame (m_player gm) ps (m_gameState gm) (m_originalPlayerPosition gm) (m_cameraShakeActive gm).

Definition Game_set_player (p : option Player) (gm : Game) : Game :=
  mkGame p (m_props gm) (m_gameState gm) (m_originalPlayerPosition gm) (m_cameraShakeActive gm).

Definition Game_set_gameState (s : eGameState) (gm : Game) : Game :=
  mkGame (m_player gm) (m_props gm) s (m_originalPlayerPosition gm) (m_cameraShakeActive gm).

Definition Game_latch (origin : Vec3) (gm : Game) : Game :=
  mkGame (m_player gm) (m_props gm) (m_gameState gm) origin true.

(** ** Computations over the process state *)

(** How a statement sequence ends: it returns; it leaves by an exception
    derived from [std::exception], which carries [what()]; it leaves by an
    exception of any other type ([throw 42], a structured exception of the
    platform, an engine type that does not derive from [std::exception]); or
    [ERROR_AND_DIE] ends the process. *)
Inductive Outcome (A : Type) : Type :=
| Returned (value : A) (w : World)
| Thrown (what : string) (w : World)
| ThrownOther (w : World)
| Died (diagnostic : string).

Arguments Returned {A} value w.
Arguments Thrown {A} what w.
Arguments ThrownOther {A} w.
Arguments Died {A} diagnostic.

Definition M (A : Type) : Type := World -> Outcome A.

#[export] Instance Monad_M : Monad M := {
  ret := fun A (v : A) (w : World) => Returned v w;
  bind := fun A B (c : M A) (k : A -> M B) (w : World) =>
    match c w with
    | Returned v w' => k v w'
    | Thrown e w' => Thrown e w'
    | ThrownOther w' => ThrownOther w'
    | Died d => Died d
    end
}.

#[export] Instance MonadState_M : MonadState World M := {
  get := fun w => Returned w w;
  put := fun w' _ => Returned tt w'
}.

(** [raise] is [throw] of a [std::exception]; [catch c h] is
    [try { c } catch (std::exception const& e) { h e.what() }]: what the
    block did before it threw stays done, and an exception of another type
    is not handled: it goes on through the handler's frame. *)
#[export] Instance MonadExc_M : MonadExc string M := {
  raise := fun A (e : string) (w : World) => Thrown e w;
  catch := fun A (c : M A) (h : string -> M A) (w : World) =>
    match c w with
    | Thrown e w' => h e w'
    | o => o
    end
}.

(** [throw] of a value whose type does not derive from [std::exception]. *)
Definition throw_other {A : Type} : M A :=
  fun w => ThrownOther w.

(** [try { c } catch (...) { h }]: the handler for every exception type. *)
Definition catch_all {A : Type} (c : M A) (h : M A) : M A :=
  fun w =>
    match c w with
    | Thrown _ w' => h w'
    | ThrownOther w' => h w'
    | o => o
    end.

Definition ERROR_AND_DIE {A : Type} (diagnostic : string) : M A :=
  fun _ => Died diagnostic.

Definition update_world (f : World -> World) : M unit :=
  w <- get ;; put (f w).

Definition DebuggerPrintf (line : string) : M unit :=
  update_world (add_debuggerOutput line).

Definition DAEMON_LOG (category : string) (v : eLogVerbosity) (msg : string) : M unit :=
  update_world (add_logOutput (mkLogLine category v msg)).

(** Reading through a null pointer, or past the end of a vector, is
    undefined; the model ends the process there. *)
Definition access_violation {A : Type} : M A :=
  fun _ => Died "access violation".

Definition deref {A : Type} (p : option A) : M A :=
  match p with
  | Some v => ret v
  | None => access_violation
  end.

(** [v[i]] on a [std::vector]. *)
Definition subscript {A : Type} (v : list A) (i : nat) : M A :=
  deref (nth_error v i).

(** [v[i] = f(v[i])], for [i] within the vector. *)
Fixpoint update_at {A : Type} (i : nat) (f : A -> A) (l : list A) : list A :=
  match l, i with
  | [], _ => []
  | h :: t, O => f h :: t
  | h :: t, S k => h :: update_at k f t
  end.

(** Conversion to a 32-bit [int]. *)
Definition wrap32 (n : Z) : Z := (n + 2 ^ 31) mod 2 ^ 32 - 2 ^ 31.

Definition newline : string := String (ascii_of_nat 10) EmptyString.

(** What [%s] prints of [s.c_str()], and [{}] of a [char const*]: the
    characters before the first NUL of a [std::string]. *)
Fixpoint c_str (s : string) : string :=
  match s with
  | EmptyString => EmptyString
  | String c rest =>
      if Ascii.eqb c (ascii_of_nat 0) then EmptyString else String c (c_str rest)
  end.

(** ** The engine *)

(** Modelled from the spec: the engine's [ScriptTypeExtractor], which the
    repository calls but does not contain.  "[ValidateArgCount]: succeeds
    silently if count matches; else returns [Error("<methodName> expects
    <expectedCount> arguments, got <actual>")]"; the extractors fail "by
    throwing" when "the underlying value is not convertible to the requested
    type", where "numeric types accept any script numeric representation;
    strings accept only script string values; Vec3 consumes exactly three
    consecutive numeric arguments starting at startIndex".  The text carried
    by a thrown failure is not given by the spec. *)
Module ScriptTypeExtractor.

Definition ValidateArgCount (args : ScriptArgs) (expectedCount : nat)
           (methodName : string) : ScriptMethodResult :=
  if Nat.eqb (length args) expectedCount then Success None
  else Error (methodName ++ " expects " ++ string_of_Z (Z.of_nat expectedCount)
              ++ " arguments, got " ++ string_of_Z (Z.of_nat (length args))).

Definition ExtractInt (arg : ScriptValue) : M Z :=
  match arg with
  | VInt n => ret n
  | VNumber q => ret (truncate q)
  | _ => raise "value is not convertible to int"
  end.

Definition ExtractFloat (arg : ScriptValue) : M float :=
  match arg with
  | VInt n => ret (float_of_Z n)
  | VNumber q => ret q
  | _ => raise "value is not convertible to float"
  end.

Definition ExtractString (arg : ScriptValue) : M string :=
  match arg with
  | VString s => ret s
  | _ => raise "value is not convertible to string"
  end.

Definition ExtractVec3 (args : ScriptArgs) (startIndex : nat) : M Vec3 :=
  match nth_error args startIndex,
        nth_error args (startIndex + 1),
        nth_error args (startIndex + 2) with
  | Some ax, Some ay, Some az =>
      vx <- ExtractFloat ax ;;
      vy <- ExtractFloat ay ;;
      vz <- ExtractFloat az ;;
      ret (mkVec3 vx vy vz)
  | _, _, _ => raise "Vec3 needs three consecutive arguments"
  end.

End ScriptTypeExtractor.

(** What the repository calls in the engine and in its own frame code that
    rests on input polling, the clock, trigonometry and drawing.  Each entry
    is an arbitrary computation: it may change the process state in any way,
    throw an exception of any type, or end the process. *)
Record Engine : Type := mkEngine {
  (** [ScriptSubsystem::ExecuteScript]; the script may call back into the
      bridge. *)
  ExecuteScript : string -> M bool;
  (** [ScriptSubsystem::ExecuteScriptFile]. *)
  ExecuteScriptFile : string -> M bool;
  (** The statements of [Game::Update]: entities, keyboard, controller and
      console handling. *)
  frame_Update : float -> float -> M unit;
  (** The statements of [Game::Render]. *)
  frame_Render : M unit
}.

(** ** App *)

Module App.

(** [App::RequestQuit]. *)
Definition RequestQuit : M unit := update_world (set_isQuitting true).

End App.

(** ** Game *)

Module Game.
Section WithEngine.

Variable engine : Engine.

(** [Game::IsAttractMode]. *)
Definition IsAttractMode (w : World) : bool :=
  match m_gameState (g_game w) with
  | ATTRACT => true
  | GAME => false
  end.

(** [Game::GetGameState]. *)
Definition GetGameState (w : World) : eGameState := m_gameState (g_game w).

(** [Game::SetGameState]. *)
Definition SetGameState (newState : eGameState) : M unit :=
  update_world (fun w => set_game (Game_set_gameState newState (g_game w)) w).

(** [Game::GetPlayer]. *)
Definition GetPlayer (w : World) : option Player := m_player (g_game w).

(** The member initialisers of [Game.hpp]. *)
Definition members : Game :=
  mkGame None [] ATTRACT (mkVec3 (-2) 0 1) false.

(** [Game::SpawnPlayer] and [Game::InitPlayer]. *)
Definition SpawnPlayer (gm : Game) : Game :=
  Game_set_player (Some (mkPlayer Entity_new)) gm.

Definition InitPlayer (gm : Game) : Game :=
  Game_set_player (option_map (Player_set_position (mkVec3 (-2) 0 1)) (m_player gm)) gm.

(** [Game::SpawnProps]. *)
Definition SpawnProps (gm : Game) : Game :=
  Game_set_props
    (m_props gm ++ [Prop_new None; Prop_new None;
                    Prop_new (Some "Data/Images/TestUV.png"); Prop_new None])
    gm.

Definition set_entity_position (newPosition : Vec3) (p : Prop_) : Prop_ :=
  Prop_set_entity (Entity_set_position newPosition (prop_entity p)) p.

(** [Game::InitProps]. *)
Definition InitProps (gm : Game) : Game :=
  let props := update_at 0 (InitializeLocalVerts CubeVerts) (m_props gm) in
  let props := update_at 1 (InitializeLocalVerts CubeVerts) props in
  let props := update_at 2 (InitializeLocalVerts SphereVerts) props in
  let props := update_at 3 (InitializeLocalVerts GridVerts) props in
  let props := update_at 0 (set_entity_position (mkVec3 2 2 0)) props in
  let props := update_at 1 (set_entity_position (mkVec3 (-2) (-2) 0)) props in
  let props := update_at 2 (set_entity_position (mkVec3 10 (-5) 1)) props in
  let props := update_at 3 (set_entity_position Vec3_ZERO) props in
  Game_set_props props gm.

(** The data of the game as [Game::Game] builds it: player and four props
    spawned and placed.  (The constructor ends by running a script file,
    which is the engine's business.) *)
Definition constructed : Game :=
  InitProps (SpawnProps (InitPlayer (SpawnPlayer members))).

(** [g_scriptSubsystem && g_scriptSubsystem->IsInitialized()]. *)
Definition script_ready (w : World) : bool :=
  match g_scriptSubsystem w with
  | Some s => IsInitialized s
  | None => false
  end.

(** [Game::ExecuteJavaScriptCommand]. *)
Definition ExecuteJavaScriptCommand (command : string) : M unit :=
  w <- get ;;
  match g_scriptSubsystem w with
  | None =>
      DAEMON_LOG "LogGame" VerbosityError
        "(Game::ExecuteJavaScriptCommand)(failed)(g_scriptSubsystem is nullptr!)"
  | Some s =>
      if negb (IsInitialized s) then
        DAEMON_LOG "LogGame" VerbosityError
          ("(Game::ExecuteJavaScriptCommand) failed| " ++ c_str command
           ++ " | ScriptSubsystem is not initialized")
      else
        ok <- ExecuteScript engine command ;;
        if ok then
          w1 <- get ;;
          s1 <- deref (g_scriptSubsystem w1) ;;
          let result := GetLastResult s1 in
          if String.eqb result "" then ret tt
          else DAEMON_LOG "LogGame" VerbosityLog
                 ("Game::ExecuteJavaScriptCommand() result | " ++ c_str result)
        else
          DAEMON_LOG "LogGame" VerbosityError "Game::ExecuteJavaScriptCommand() failed" ;;
          w1 <- get ;;
          s1 <- deref (g_scriptSubsystem w1) ;;
          if HasError s1 then
            DAEMON_LOG "LogGame" VerbosityError
              ("Game::ExecuteJavaScriptCommand() error | " ++ c_str (GetLastError s1))
          else ret tt
  end.

(** [Game::ExecuteJavaScriptFile]. *)
Definition ExecuteJavaScriptFile (filename : string) : M unit :=
  w <- get ;;
  match g_scriptSubsystem w with
  | None => ERROR_AND_DIE "(Game::ExecuteJavaScriptFile)(g_scriptSubsystem is nullptr!)"
  | Some s =>
      if negb (IsInitialized s) then
        ERROR_AND_DIE "(Game::ExecuteJavaScriptFile)(g_scriptSubsystem is not initialized!)"
      else
        DAEMON_LOG "LogGame" VerbosityLog
          ("(Game::ExecuteJavaScriptFile)(start)(" ++ filename ++ ")") ;;
        ok <- ExecuteScriptFile engine filename ;;
        if negb ok then
          DAEMON_LOG "LogGame" VerbosityError
            ("(Game::ExecuteJavaScriptFile)(fail)(" ++ filename ++ ")") ;;
          w1 <- get ;;
          s1 <- deref (g_scriptSubsystem w1) ;;
          if HasError s1 then
            DAEMON_LOG "LogGame" VerbosityError
              ("(Game::ExecuteJavaScriptFile)(fail)(error: " ++ GetLastError s1 ++ ")")
          else ret tt
        else
          DAEMON_LOG "LogGame" VerbosityLog
            ("(Game::ExecuteJavaScriptFile)(end)(" ++ c_str filename ++ ")")
  end.

(** [Game::UpdateJS].  The [else] branch of the source, a direct call of
    [Update], is commented out there. *)
Definition UpdateJS : M unit :=
  w <- get ;;
  if script_ready w then
    let gameDeltaSeconds := gameClockDelta w in
    let systemDeltaSeconds := systemClockDelta w in
    ExecuteJavaScriptCommand
      ("globalThis.JSEngine.update(" ++ to_string gameDeltaSeconds ++ ", "
       ++ to_string systemDeltaSeconds ++ ");")
  else ret tt.

(** [Game::RenderJS].  Again the fallback of the source is commented out. *)
Definition RenderJS : M unit :=
  w <- get ;;
  if script_ready w then ExecuteJavaScriptCommand "globalThis.JSEngine.render();"
  else ret tt.

(** [g_rng->RollRandomIntInRange(lo, hi)]: the next draw, brought into
    [lo .. hi]. *)
Definition RollRandomIntInRange (lo hi : Z) : M Z :=
  w <- get ;;
  let rng := g_rng w in
  put (set_rng (mkRng (rng_source rng) (S (rng_taken rng))) w) ;;
  ret (lo + rng_source rng (rng_taken rng) mod (hi - lo + 1)).

(** [Game::CreateCube].  The three draws are taken in the order the
    arguments of [Rgba8(...)] are written. *)
Definition CreateCube (position : Vec3) : M unit :=
  DAEMON_LOG "LogScript" VerbosityLog
    ("(Game::CreateCube)(start)(position (" ++ format_fixed 2 (x position) ++ ", "
     ++ format_fixed 2 (y position) ++ ", " ++ format_fixed 2 (z position) ++ "))") ;;
  red <- RollRandomIntInRange 100 255 ;;
  green <- RollRandomIntInRange 100 255 ;;
  blue <- RollRandomIntInRange 100 255 ;;
  let color := mkRgba8 (to_uchar red) (to_uchar green) (to_uchar blue) 255 in
  let newCube :=
    InitializeLocalVerts CubeVerts
      (Prop_set_entity
         (Entity_set_color color (Entity_set_position position Entity_new))
         (Prop_new None)) in
  update_world (fun w => set_game (Game_set_props (m_props (g_game w) ++ [newCube]) (g_game w)) w) ;;
  w <- get ;;
  DAEMON_LOG "LogScript" VerbosityLog
    ("(Game::CreateCube)(end)(m_props size: "
     ++ string_of_Z (Z.of_nat (length (m_props (g_game w)))) ++ ")").

(** [m_props[propIndex]->m_position = newPosition]. *)
Definition set_prop_position (propIndex : nat) (newPosition : Vec3)
           (props : list Prop_) : list Prop_ :=
  update_at propIndex (set_entity_position newPosition) props.

(** [Game::MoveProp]. *)
Definition MoveProp (propIndex : Z) (newPosition : Vec3) : M unit :=
  w <- get ;;
  let props := m_props (g_game w) in
  if (0 <=? propIndex) && (propIndex <? wrap32 (Z.of_nat (length props))) then
    put (set_game
           (Game_set_props (set_prop_position (Z.to_nat propIndex) newPosition props)
                           (g_game w)) w) ;;
    DAEMON_LOG "LogScript" VerbosityLog
      ("(Game::MoveProp)(end)(prop " ++ string_of_Z propIndex ++ " move to position ("
       ++ format_fixed 2 (x newPosition) ++ ", " ++ format_fixed 2 (y newPosition) ++ ", "
       ++ format_fixed 2 (z newPosition) ++ "))")
  else
    DebuggerPrintf
      ("警告：JavaScript 請求移動無效的物件索引 " ++ string_of_Z propIndex
       ++ "（總共 " ++ string_of_Z (Z.of_nat (length props)) ++ " 個物件）" ++ newline).

(** [Game::MovePlayerCamera]. *)
Definition MovePlayerCamera (offset : Vec3) : M unit :=
  w <- get ;;
  match m_player (g_game w) with
  | None => ret tt
  | Some player =>
      (if negb (m_cameraShakeActive (g_game w)) then
         let origin := Player_position player in
         put (set_game (Game_latch origin (g_game w)) w) ;;
         DebuggerPrintf
           ("開始相機震動，原始位置: (" ++ format_fixed 3 (x origin) ++ ", "
            ++ format_fixed 3 (y origin) ++ ", " ++ format_fixed 3 (z origin) ++ ")"
            ++ newline)
       else ret tt) ;;
      w1 <- get ;;
      let newPosition := Vec3_add (m_originalPlayerPosition (g_game w1)) offset in
      put (set_game
             (Game_set_player (Some (Player_set_position newPosition player)) (g_game w1))
             w1)
  end.

(** [Game::Update] and [Game::Render]. *)
Definition Update (gameDeltaSeconds systemDeltaSeconds : float) : M unit :=
  frame_Update engine gameDeltaSeconds systemDeltaSeconds.

Definition Render : M unit := frame_Render engine.

End WithEngine.
End Game.

(** ** GameScriptInterface *)

Module GameScriptInterface.
Section WithEngine.

Variable engine : Engine.

Import ScriptTypeExtractor.

(** [GameScriptInterface::GetAvailableMethods]. *)
Definition GetAvailableMethods : list ScriptMethodInfo :=
  [ mkScriptMethodInfo "appRequestQuit" "Request quit to app" [] "void";
    mkScriptMethodInfo "createCube" "在指定位置創建一個立方體"
                       ["float"; "float"; "float"] "string";
    mkScriptMethodInfo "moveProp" "移動指定索引的道具到新位置"
                       ["int"; "float"; "float"; "float"] "string";
    mkScriptMethodInfo "getPlayerPosition" "取得玩家目前位置" [] "object";
    mkScriptMethodInfo "movePlayerCamera" "移動玩家相機（用於晃動效果）"
                       ["float"; "float"; "float"] "string";
    mkScriptMethodInfo "update" "JavaScript GameLoop Update" ["float"; "float"] "void";
    mkScriptMethodInfo "render" "JavaScript GameLoop Render" [] "void";
    mkScriptMethodInfo "executeCommand" "執行 JavaScript 指令" ["string"] "string";
    mkScriptMethodInfo "executeFile" "執行 JavaScript 檔案" ["string"] "string";
    mkScriptMethodInfo "isAttractMode" "檢查遊戲是否處於吸引模式" [] "bool";
    mkScriptMethodInfo "getFileTimestamp" "取得檔案的最後修改時間戳記"
                       ["string"] "number" ].

(** [GameScriptInterface::GetAvailableProperties]. *)
Definition GetAvailableProperties : list string := ["attractMode"; "gameState"].

(** [GameScriptInterface::ExecuteAppRequestQuit]. *)
Definition ExecuteAppRequestQuit (args : ScriptArgs) : M ScriptMethodResult :=
  let result := ValidateArgCount args 0 "appRequestQuit" in
  if negb (success result) then ret result
  else
    catch (App.RequestQuit ;;
           ret (Success None))
          (fun e => ret (Error ("創建立方體失敗: " ++ e))).

(** [GameScriptInterface::ExecuteCreateCube]. *)
Definition ExecuteCreateCube (args : ScriptArgs) : M ScriptMethodResult :=
  let result := ValidateArgCount args 3 "createCube" in
  if negb (success result) then ret result
  else
    catch (position <- ExtractVec3 args 0 ;;
           Game.CreateCube position ;;
           ret (Success (Some (VString
                  ("立方體創建成功，位置: (" ++ to_string (x position) ++ ", "
                   ++ to_string (y position) ++ ", " ++ to_string (z position) ++ ")")))))
          (fun e => ret (Error ("創建立方體失敗: " ++ e))).

(** [GameScriptInterface::ExecuteMoveProp]. *)
Definition ExecuteMoveProp (args : ScriptArgs) : M ScriptMethodResult :=
  let result := ValidateArgCount args 4 "moveProp" in
  if negb (success result) then ret result
  else
    catch (arg0 <- subscript args 0 ;;
           propIndex <- ExtractInt arg0 ;;
           newPosition <- ExtractVec3 args 1 ;;
           Game.MoveProp propIndex newPosition ;;
           ret (Success (Some (VString
                  ("道具 " ++ string_of_Z propIndex ++ " 移動成功，新位置: ("
                   ++ to_string (x newPosition) ++ ", " ++ to_string (y newPosition) ++ ", "
                   ++ to_string (z newPosition) ++ ")")))))
          (fun e => ret (Error ("移動道具失敗: " ++ e))).

(** [GameScriptInterface::ExecuteGetPlayerPosition]. *)
Definition ExecuteGetPlayerPosition (args : ScriptArgs) : M ScriptMethodResult :=
  let result := ValidateArgCount args 0 "getPlayerPosition" in
  if negb (success result) then ret result
  else
    catch (w <- get ;;
           match Game.GetPlayer w with
           | None => ret (Error "玩家物件不存在")
           | Some player =>
               let position := Player_position player in
               let positionStr :=
                 "{ x: " ++ to_string (x position) ++ ", y: " ++ to_string (y position)
                 ++ ", z: " ++ to_string (z position) ++ " }" in
               ret (Success (Some (VString positionStr)))
           end)
          (fun e => ret (Error ("取得玩家位置失敗: " ++ e))).

(** [GameScriptInterface::ExecuteMovePlayerCamera]. *)
Definition ExecuteMovePlayerCamera (args : ScriptArgs) : M ScriptMethodResult :=
  let result := ValidateArgCount args 3 "movePlayerCamera" in
  if negb (success result) then ret result
  else
    catch (offset <- ExtractVec3 args 0 ;;
           Game.MovePlayerCamera offset ;;
           ret (Success (Some (VString
                  ("相機位置已移動: (" ++ to_string (x offset) ++ ", "
                   ++ to_string (y offset) ++ ", " ++ to_string (z offset) ++ ")")))))
          (fun e => ret (Error ("移動玩家相機失敗: " ++ e))).

(** [GameScriptInterface::ExecuteRender]. *)
Definition ExecuteRender (args : ScriptArgs) : M ScriptMethodResult :=
  let result := ValidateArgCount args 0 "Render" in
  if negb (success result) then ret result
  else
    catch (Game.Render engine ;;
           ret (Success (Some (VString "Render Success"))))
          (fun e => ret (Error ("Render failed: " ++ e))).

(** [GameScriptInterface::ExecuteUpdate]. *)
Definition ExecuteUpdate (args : ScriptArgs) : M ScriptMethodResult :=
  let result := ValidateArgCount args 2 "Update" in
  if negb (success result) then ret result
  else
    catch (arg0 <- subscript args 0 ;;
           gameDeltaSeconds <- ExtractFloat arg0 ;;
           arg1 <- subscript args 1 ;;
           systemDeltaSeconds <- ExtractFloat arg1 ;;
           Game.Update engine gameDeltaSeconds systemDeltaSeconds ;;
           ret (Success (Some (VString "Update Success"))))
          (fun e => ret (Error ("Update failed: " ++ e))).

(** [GameScriptInterface::ExecuteJavaScriptCommand]. *)
Definition ExecuteJavaScriptCommand (args : ScriptArgs) : M ScriptMethodResult :=
  let result := ValidateArgCount args 1 "executeCommand" in
  if negb (success result) then ret result
  else
    catch (arg0 <- subscript args 0 ;;
           command <- ExtractString arg0 ;;
           Game.ExecuteJavaScriptCommand engine command ;;
           ret (Success (Some (VString ("指令執行: " ++ command)))))
          (fun e => ret (Error ("執行 JavaScript 指令失敗: " ++ e))).

(** [GameScriptInterface::ExecuteJavaScriptFile]. *)
Definition ExecuteJavaScriptFile (args : ScriptArgs) : M ScriptMethodResult :=
  let result := ValidateArgCount args 1 "executeFile" in
  if negb (success result) then ret result
  else
    catch (arg0 <- subscript args 0 ;;
           filename <- ExtractString arg0 ;;
           Game.ExecuteJavaScriptFile engine filename ;;
           ret (Success (Some (VString ("檔案執行: " ++ filename)))))
          (fun e => ret (Error ("執行 JavaScript 檔案失敗: " ++ e))).

(** [GameScriptInterface::ExecuteIsAttractMode]. *)
Definition ExecuteIsAttractMode (args : ScriptArgs) : M ScriptMethodResult :=
  let result := ValidateArgCount args 0 "isAttractMode" in
  if negb (success result) then ret result
  else
    catch (w <- get ;;
           let isAttract := Game.IsAttractMode w in
           ret (Success (Some (VBool isAttract))))
          (fun e => ret (Error ("檢查吸引模式失敗: " ++ e))).

(** [GameScriptInterface::CallMethod]. *)
Definition CallMethod (methodName : string) (args : ScriptArgs) : M ScriptMethodResult :=
  catch (if String.eqb methodName "appRequestQuit" then ExecuteAppRequestQuit args
         else if String.eqb methodName "createCube" then ExecuteCreateCube args
         else if String.eqb methodName "moveProp" then ExecuteMoveProp args
         else if String.eqb methodName "getPlayerPosition" then ExecuteGetPlayerPosition args
         else if String.eqb methodName "movePlayerCamera" then ExecuteMovePlayerCamera args
         else if String.eqb methodName "update" then ExecuteUpdate args
         else if String.eqb methodName "render" then ExecuteRender args
         else if String.eqb methodName "executeCommand" then ExecuteJavaScriptCommand args
         else if String.eqb methodName "executeFile" then ExecuteJavaScriptFile args
         else if String.eqb methodName "isAttractMode" then ExecuteIsAttractMode args
         else ret (Error ("未知的方法: " ++ methodName)))
        (fun e => ret (Error ("方法執行時發生例外: " ++ e))).

(** [GameScriptInterface::GetProperty]; an empty [std::any] is [None].
    The [default] label of the source's [switch] has no value of
    [eGameState] to serve. *)
Definition GetProperty (propertyName : string) (w : World) : option ScriptValue :=
  if String.eqb propertyName "attractMode" then Some (VBool (Game.IsAttractMode w))
  else if String.eqb propertyName "gameState" then
    match Game.GetGameState w with
    | ATTRACT => Some (VString "ATTRACT")
    | GAME => Some (VString "GAME")
    end
  else None.

(** [GameScriptInterface::SetProperty]. *)
Definition SetProperty (propertyName : string) (value : ScriptValue) : M bool :=
  if String.eqb propertyName "gameState" then
    catch (stateStr <- ExtractString value ;;
           if String.eqb stateStr "ATTRACT" || String.eqb stateStr "attract"
              || String.eqb stateStr "0" then
             Game.SetGameState ATTRACT ;;
             ret true
           else if String.eqb stateStr "GAME" || String.eqb stateStr "game"
                   || String.eqb stateStr "1" then
             Game.SetGameState GAME ;;
             ret true
           else ret false)
          (fun _ => ret false)
  else ret false.

End WithEngine.
End GameScriptInterface.

(** ** Concrete worlds and engines *)

(** A script runtime that has been started. *)
Definition started_scripts : ScriptSubsystem := mkScriptSubsystem true "" false "".

(** A process state around the game as constructed, with the script
    subsystem [scripts]; the draws of the random number generator are
    [0, 1, 2, ...] and both clocks advance by a sixtieth of a second. *)
Definition world_with (scripts : option ScriptSubsystem) : World :=
  mkWorld Game.constructed scripts (mkRng Z.of_nat 0) false (1 # 60) (1 # 60) [] [].

(** The script runtime is running, as it is when scripts call the bridge. *)
Definition running_world : World := world_with (Some started_scripts).

(** There is no script runtime. *)
Definition scriptless_world : World := world_with None.

(** An engine whose script runtime runs every script successfully and
    without touching the native state, and whose frame code does nothing. *)
Definition quiet_engine : Engine :=
  mkEngine (fun _ => ret true) (fun _ => ret true) (fun _ _ => ret tt) (ret tt).

(** An engine whose frame update asks the application to quit, as
    [Game::Update] does when Escape is pressed in attract mode, and whose
    frame rendering writes a line to the debugger output. *)
Definition busy_engine : Engine :=
  mkEngine (fun _ => ret true) (fun _ => ret true)
           (fun _ _ => App.RequestQuit) (DebuggerPrintf "frame rendered").

(** An engine every entry of which throws a [std::exception]. *)
Definition failing_engine : Engine :=
  mkEngine (fun _ => raise "script runtime failure") (fun _ => raise "script runtime failure")
           (fun _ _ => raise "update failure") (raise "render failure").

(** An engine every entry of which throws a value that is not a
    [std::exception]. *)
Definition foreign_engine : Engine :=
  mkEngine (fun _ => throw_other) (fun _ => throw_other)
           (fun _ _ => throw_other) throw_other.

(** ** Vocabulary of the properties *)

(** The computation never leaves by an exception of a type that does not
    derive from [std::exception]. *)
Definition throws_std_only {A : Type} (c : M A) : Prop :=
  forall w w', c w <> ThrownOther w'.

(** Every exception that the engine throws derives from [std::exception]. *)
Definition engine_throws_std_only (engine : Engine) : Prop :=
  (forall script, throws_std_only (ExecuteScript engine script))
  /\ (forall filename, throws_std_only (ExecuteScriptFile engine filename))
  /\ (forall gameDeltaSeconds systemDeltaSeconds,
        throws_std_only (frame_Update engine gameDeltaSeconds systemDeltaSeconds))
  /\ throws_std_only (frame_Render engine).

(** The world in which the game is in state [s]. *)
Definition with_gameState (s : eGameState) (w : World) : World :=
  set_game (Game_set_gameState s (g_game w)) w.

(** A script number, integral or not. *)
Definition is_numeric (v : ScriptValue) : bool :=
  match v with
  | VInt _ | VNumber _ => true
  | _ => false
  end.

(** Whether a value has the type that a [ScriptMethodInfo] names. *)
Definition has_type (typeName : string) (v : ScriptValue) : bool :=
  if String.eqb typeName "float" then is_numeric v
  else if String.eqb typeName "int" then is_numeric v
  else if String.eqb typeName "string" then
    match v with VString _ => true | _ => false end
  else false.

(** Whether the arguments have, one by one, the listed parameter types. *)
Fixpoint conforms (types : list string) (args : ScriptArgs) : bool :=
  match types, args with
  | [], [] => true
  | t :: types', v :: args' => has_type t v && conforms types' args'
  | _, _ => false
  end.

(** The frame steps do what the native methods do. *)
Definition falls_back_to_native (engine : Engine) (w : World) : Prop :=
  Game.UpdateJS engine w = Game.Update engine (gameClockDelta w) (systemClockDelta w) w
  /\ Game.RenderJS engine w = Game.Render engine w.

(** A native call that a script can make on the game without going through
    the engine. *)
Inductive NativeCall : Type :=
| DoCreateCube (position : Vec3)
| DoMoveProp (propIndex : Z) (newPosition : Vec3)
| DoSetGameState (newState : eGameState)
| DoMovePlayerCamera (offset : Vec3).

Definition run_call (c : NativeCall) : M unit :=
  match c with
  | DoCreateCube position => Game.CreateCube position
  | DoMoveProp propIndex newPosition => Game.MoveProp propIndex newPosition
  | DoSetGameState newState => Game.SetGameState newState
  | DoMovePlayerCamera offset => Game.MovePlayerCamera offset
  end.

(** The calls of a script, in order. *)
Fixpoint run_calls (cs : list NativeCall) : M unit :=
  match cs with
  | [] => ret tt
  | c :: later => run_call c ;; run_calls later
  end.

(** The camera shake is latched on [origin]. *)
Definition latched (origin : Vec3) (w : World) : Prop :=
  (exists p, m_player (g_game w) = Some p)
  /\ m_cameraShakeActive (g_game w) = true
  /\ m_originalPlayerPosition (g_game w) = origin.

(** What [Game::MoveProp] prints for an index it refuses. *)
Definition invalid_index_warning (propIndex : Z) (count : nat) : string :=
  "警告：JavaScript 請求移動無效的物件索引 " ++ string_of_Z propIndex
  ++ "（總共 " ++ string_of_Z (Z.of_nat count) ++ " 個物件）" ++ newline.

(** ** Further code of the repository *)

(** What [Game] and [App] call beyond [Engine]: the module loader and the
    script registry of the script subsystem, and its per-frame update.  As
    in [Engine], each entry is an arbitrary computation. *)
Record ScriptRuntime : Type := mkScriptRuntime {
  (** [ScriptSubsystem::ExecuteModule]. *)
  ExecuteModule : string -> M bool;
  (** [ScriptSubsystem::ExecuteRegisteredScript(content, name)]. *)
  ExecuteRegisteredScript : string -> string -> M bool;
  (** [ScriptSubsystem::Update]. *)
  ScriptSubsystem_Update : M unit
}.

(** What [std::ifstream] finds under a path: the content of the file, or
    [None] when it cannot be opened. *)
Definition FileSystem : Type := string -> option string.

(** The keys that [Game::HandleJavaScriptCommands] asks about, under the
    names the source gives them (['K'] and ['L'] are character literals
    there). *)
Inductive KeyCode : Type := KEYCODE_J | KEY_K | KEY_L | VK_F2 | VK_F3.

(** The answers of [g_input] during one frame. *)
Record InputSystem : Type := mkInputSystem {
  WasKeyJustPressed : KeyCode -> bool;
  IsKeyDown : KeyCode -> bool
}.

Inductive XboxButtonID : Type :=
| XBOX_BUTTON_BACK | XBOX_BUTTON_START | XBOX_BUTTON_B | XBOX_BUTTON_Y | XBOX_BUTTON_X.

(** The answers of [g_input->GetController(0)] during one frame. *)
Record XboxController : Type := mkXboxController {
  WasButtonJustPressed : XboxButtonID -> bool;
  WasButtonJustReleased : XboxButtonID -> bool
}.

(** A call made on [m_gameClock]. *)
Inductive ClockCall : Type :=
| TogglePause
| StepSingleFrame
| SetTimeScale (scale : float).

(** [s.find_last_of(set)]: the last position of [s] that holds one of the
    characters of [set]; [None] is [npos]. *)
Fixpoint find_last_of (set : list ascii) (s : string) : option nat :=
  match s with
  | EmptyString => None
  | String c rest =>
      match find_last_of set rest with
      | Some i => Some (S i)
      | None => if existsb (Ascii.eqb c) set then Some O else None
      end
  end.

(** The characters after which [Game::ExecuteJavaScriptFileForDebug] cuts a
    path: the ["/\\"] of the source. *)
Definition separators : list ascii := ["/"%char; "\"%char].

(** [s.substr(pos)], for [pos] within [s]. *)
Definition substr (pos : nat) (s : string) : string :=
  String.substring pos (String.length s - pos) s.

Module GameScripts.
Section WithEngine.

Variable engine : Engine.
Variable runtime : ScriptRuntime.
Variable files : FileSystem.

(** [Game::ExecuteModuleFile]. *)
Definition ExecuteModuleFile (modulePath : string) : M unit :=
  w <- get ;;
  match g_scriptSubsystem w with
  | None => ERROR_AND_DIE "(Game::ExecuteModuleFile)(g_scriptSubsystem is nullptr!)"
  | Some s =>
      if negb (IsInitialized s) then
        ERROR_AND_DIE "(Game::ExecuteModuleFile)(g_scriptSubsystem is not initialized!)"
      else
        DAEMON_LOG "LogGame" VerbosityLog
          ("(Game::ExecuteModuleFile)(start)(" ++ modulePath ++ ")") ;;
        ok <- ExecuteModule runtime modulePath ;;
        if negb ok then
          DAEMON_LOG "LogGame" VerbosityError
            ("(Game::ExecuteModuleFile)(fail)(" ++ modulePath ++ ")") ;;
          w1 <- get ;;
          s1 <- deref (g_scriptSubsystem w1) ;;
          if HasError s1 then
            DAEMON_LOG "LogGame" VerbosityError
              ("(Game::ExecuteModuleFile)(fail)(error: " ++ GetLastError s1 ++ ")")
          else ret tt
        else
          DAEMON_LOG "LogGame" VerbosityLog
            ("(Game::ExecuteModuleFile)(end)(" ++ c_str modulePath ++ ")")
  end.

(** [Game::InitializeJavaScriptFramework]; its handler is [catch (...)]. *)
Definition InitializeJavaScriptFramework : M unit :=
  DAEMON_LOG "LogGame" VerbosityDisplay "Game::InitializeJavaScriptFramework() start" ;;
  w <- get ;;
  if negb (Game.script_ready w) then
    DAEMON_LOG "LogGame" VerbosityError
      "Game::InitializeJavaScriptFramework() failed - ScriptSubsystem not available"
  else
    catch_all
      (DAEMON_LOG "LogGame" VerbosityDisplay
         "Loading main.mjs (ES6 module entry point)..." ;;
       ExecuteModuleFile "Data/Scripts/main.mjs" ;;
       DAEMON_LOG "LogGame" VerbosityDisplay
         "Game::InitializeJavaScriptFramework() complete - Pure ES6 Module architecture initialized")
      (DAEMON_LOG "LogGame" VerbosityError
         "Game::InitializeJavaScriptFramework() exception occurred").

(** [Game::PostInit]. *)
Definition PostInit : M unit := InitializeJavaScriptFramework.

(** [Game::ExecuteJavaScriptCommandForDebug]. *)
Definition ExecuteJavaScriptCommandForDebug (command scriptName : string) : M unit :=
  w <- get ;;
  match g_scriptSubsystem w with
  | None =>
      DAEMON_LOG "LogGame" VerbosityError
        ("Game::ExecuteJavaScriptCommandForDebug() failed| " ++ c_str command
         ++ " | ScriptSubsystem is nullptr")
  | Some s =>
      if negb (IsInitialized s) then
        DAEMON_LOG "LogGame" VerbosityError
          ("Game::ExecuteJavaScriptCommandForDebug() failed| " ++ c_str command
           ++ " | ScriptSubsystem is not initialized")
      else
        ok <- ExecuteRegisteredScript runtime command scriptName ;;
        if ok then
          w1 <- get ;;
          s1 <- deref (g_scriptSubsystem w1) ;;
          let result := GetLastResult s1 in
          if String.eqb result "" then ret tt
          else DAEMON_LOG "LogGame" VerbosityLog
                 ("Game::ExecuteJavaScriptCommandForDebug() result | " ++ c_str result)
        else
          DAEMON_LOG "LogGame" VerbosityError
            "Game::ExecuteJavaScriptCommandForDebug() failed" ;;
          w1 <- get ;;
          s1 <- deref (g_scriptSubsystem w1) ;;
          if HasError s1 then
            DAEMON_LOG "LogGame" VerbosityError
              ("Game::ExecuteJavaScriptCommandForDebug() error | " ++ c_str (GetLastError s1))
          else ret tt
  end.

(** The name under which [Game::ExecuteJavaScriptFileForDebug] registers a
    file: what follows the last slash or backslash of the path. *)
Definition script_name (filename : string) : string :=
  match find_last_of separators filename with
  | Some lastSlash => substr (lastSlash + 1) filename
  | None => filename
  end.

(** [Game::ExecuteJavaScriptFileForDebug]. *)
Definition ExecuteJavaScriptFileForDebug (filename : string) : M unit :=
  w <- get ;;
  match g_scriptSubsystem w with
  | None =>
      DAEMON_LOG "LogGame" VerbosityError
        ("Game::ExecuteJavaScriptFileForDebug() failed| " ++ c_str filename
         ++ " | ScriptSubsystem is nullptr")
  | Some s =>
      if negb (IsInitialized s) then
        DAEMON_LOG "LogGame" VerbosityError
          ("Game::ExecuteJavaScriptFileForDebug() failed| " ++ c_str filename
           ++ " | ScriptSubsystem is not initialized")
      else
        match files filename with
        | None =>
            DAEMON_LOG "LogGame" VerbosityError
              ("Game::ExecuteJavaScriptFileForDebug() failed to open file: " ++ c_str filename)
        | Some scriptContent =>
            if String.eqb scriptContent "" then
              DAEMON_LOG "LogGame" VerbosityWarning
                ("Game::ExecuteJavaScriptFileForDebug() file is empty: " ++ c_str filename)
            else
              let scriptName := script_name filename in
              DAEMON_LOG "LogGame" VerbosityDisplay
                ("Game::ExecuteJavaScriptFileForDebug() executing " ++ c_str filename
                 ++ " for Chrome DevTools debugging") ;;
              ok <- ExecuteRegisteredScript runtime scriptContent scriptName ;;
              if ok then
                w1 <- get ;;
                s1 <- deref (g_scriptSubsystem w1) ;;
                let result := GetLastResult s1 in
                if String.eqb result "" then ret tt
                else DAEMON_LOG "LogGame" VerbosityLog
                       ("Game::ExecuteJavaScriptFileForDebug() result | " ++ c_str result)
              else
                DAEMON_LOG "LogGame" VerbosityError
                  "Game::ExecuteJavaScriptFileForDebug() failed" ;;
                w1 <- get ;;
                s1 <- deref (g_scriptSubsystem w1) ;;
                if HasError s1 then
                  DAEMON_LOG "LogGame" VerbosityError
                    ("Game::ExecuteJavaScriptFileForDebug() error | " ++ c_str (GetLastError s1))
                else ret tt
        end
  end.

(** [Game::HandleJavaScriptCommands]. *)
Definition HandleJavaScriptCommands (input : InputSystem) : M unit :=
  (if WasKeyJustPressed input KEYCODE_J then
     Game.ExecuteJavaScriptFile engine "Data/Scripts/test_scripts.js"
   else ret tt) ;;
  (if IsKeyDown input KEY_K then
     Game.ExecuteJavaScriptCommand engine
       "game.moveProp(0, Math.random() * 10 - 5, 0, Math.random() * 10 - 5);"
   else ret tt) ;;
  (if WasKeyJustPressed input KEY_L then
     Game.ExecuteJavaScriptCommand engine "debug('Player Position');"
   else ret tt) ;;
  (if WasKeyJustPressed input VK_F2 then
     ExecuteJavaScriptFileForDebug "Data/Scripts/F1_KeyHandler.js"
   else ret tt) ;;
  (if WasKeyJustPressed input VK_F3 then
     ExecuteJavaScriptCommandForDebug "toggleShouldRender()" "Data/Scripts/F1_KeyHandler.js"
   else ret tt).

(** [Game::UpdateFromController].  The calls it makes on [m_gameClock], which
    lives in the engine, are returned in the order they are made. *)
Definition UpdateFromController (controller : XboxController) : M (list ClockCall) :=
  w <- get ;;
  match m_gameState (g_game w) with
  | ATTRACT =>
      (if WasButtonJustPressed controller XBOX_BUTTON_BACK then App.RequestQuit
       else ret tt) ;;
      (if WasButtonJustPressed controller XBOX_BUTTON_START then Game.SetGameState GAME
       else ret tt)
  | GAME => ret tt
  end ;;
  w1 <- get ;;
  match m_gameState (g_game w1) with
  | GAME =>
      (if WasButtonJustPressed controller XBOX_BUTTON_BACK then Game.SetGameState ATTRACT
       else ret tt) ;;
      ret ((if WasButtonJustPressed controller XBOX_BUTTON_B then [TogglePause] else [])
           ++ (if WasButtonJustPressed controller XBOX_BUTTON_Y then [StepSingleFrame] else [])
           ++ (if WasButtonJustPressed controller XBOX_BUTTON_X
               then [SetTimeScale (1 # 10)] else [])
           ++ (if WasButtonJustReleased controller XBOX_BUTTON_X
               then [SetTimeScale 1] else []))%list
  | ATTRACT => ret []
  end.

End WithEngine.
End GameScripts.

(** The engine subsystems that [App] steps every frame. *)
Inductive Subsystem : Type :=
| EventSystem | Window | Renderer | DebugRender | DevConsole | Input | Audio.

Inductive eCursorMode : Type := POINTER | FPS.

(** What [App] calls in the engine each frame; arbitrary computations, as
    in [Engine]. *)
Record Platform : Type := mkPlatform {
  (** [BeginFrame] and [EndFrame] of a subsystem. *)
  subsystem_BeginFrame : Subsystem -> M unit;
  subsystem_EndFrame : Subsystem -> M unit;
  (** [Clock::TickSystemClock]. *)
  TickSystemClock : M unit;
  (** [GetActiveWindow() == g_window->GetWindowHandle()]. *)
  doesWindowHasFocus : M bool;
  (** [g_devConsole->IsOpen()] and [g_devConsole->Render]. *)
  DevConsole_IsOpen : M bool;
  DevConsole_Render : M unit;
  (** [g_input->SetCursorMode]. *)
  SetCursorMode : eCursorMode -> M unit;
  (** [g_renderer->ClearScreen]. *)
  ClearScreen : M unit
}.

Module AppFrame.
Section WithEngine.

Variable engine : Engine.
Variable runtime : ScriptRuntime.
Variable platform : Platform.

(** [App::OnCloseButtonClicked]. *)
Definition OnCloseButtonClicked : M bool :=
  App.RequestQuit ;;
  ret true.

(** [std::any_cast<std::string>]: throws [std::bad_any_cast] on a value that
    is not a string. *)
Definition any_cast_string (v : ScriptValue) : M string :=
  match v with
  | VString s => ret s
  | _ => raise "bad any_cast"
  end.

(** [App::OnDebug]; the empty [std::any] it returns is [None].  Its handler
    is for [std::bad_any_cast], the one exception its block can throw.  The
    message goes through [%s] as [message.c_str()], so that what is printed
    of it ends before its first NUL. *)
Definition OnDebug (args : list ScriptValue) : M (option ScriptValue) :=
  match args with
  | [] => ret tt
  | arg0 :: _ =>
      catch (message <- any_cast_string arg0 ;;
             DebuggerPrintf ("JS DEBUG: " ++ c_str message ++ newline))
            (fun _ => DebuggerPrintf ("JS DEBUG: [無法轉換的物件]" ++ newline))
  end ;;
  ret None.

(** [App::BeginFrame] and [App::EndFrame]. *)
Definition BeginFrame : M unit :=
  subsystem_BeginFrame platform EventSystem ;;
  subsystem_BeginFrame platform Window ;;
  subsystem_BeginFrame platform Renderer ;;
  subsystem_BeginFrame platform DebugRender ;;
  subsystem_BeginFrame platform DevConsole ;;
  subsystem_BeginFrame platform Input ;;
  subsystem_BeginFrame platform Audio.

Definition EndFrame : M unit :=
  subsystem_EndFrame platform EventSystem ;;
  subsystem_EndFrame platform Window ;;
  subsystem_EndFrame platform Renderer ;;
  subsystem_EndFrame platform DebugRender ;;
  subsystem_EndFrame platform DevConsole ;;
  subsystem_EndFrame platform Input ;;
  subsystem_EndFrame platform Audio.

(** [App::UpdateCursorMode].  The operands of [||] are evaluated from the
    left and only as far as needed: the console is asked only when the window
    has the focus, the game only when the console is closed. *)
Definition UpdateCursorMode : M unit :=
  focused <- doesWindowHasFocus platform ;;
  shouldUsePointerMode <-
    (if negb focused then ret true
     else
       consoleOpen <- DevConsole_IsOpen platform ;;
       if consoleOpen then ret true
       else
         w <- get ;;
         ret (Game.IsAttractMode w)) ;;
  if (shouldUsePointerMode : bool) then SetCursorMode platform POINTER
  else SetCursorMode platform FPS.

(** [App::Update]. *)
Definition Update : M unit :=
  TickSystemClock platform ;;
  UpdateCursorMode ;;
  w <- get ;;
  match g_scriptSubsystem w with
  | Some _ => ScriptSubsystem_Update runtime
  | None => ret tt
  end ;;
  Game.UpdateJS engine.

(** [App::Render]. *)
Definition Render : M unit :=
  ClearScreen platform ;;
  Game.RenderJS engine ;;
  DevConsole_Render platform.

(** [App::RunFrame]. *)
Definition RunFrame : M unit :=
  BeginFrame ;;
  Update ;;
  Render ;;
  EndFrame.

(** [App::RunMainLoop], given at most [frames] frames to run: the value is
    [true] when the loop has ended, [false] when the frames ran out first. *)
Fixpoint RunMainLoop (frames : nat) : M bool :=
  w <- get ;;
  if m_isQuitting w then ret true
  else
    match frames with
    | O => ret false
    | S remaining => RunFrame ;; RunMainLoop remaining
    end.

End WithEngine.
End AppFrame.

(** A script runtime and a platform that do nothing, and a file system
    without files. *)
Definition quiet_runtime : ScriptRuntime :=
  mkScriptRuntime (fun _ => ret true) (fun _ _ => ret true) (ret tt).

Definition quiet_platform : Platform :=
  mkPlatform (fun _ => ret tt) (fun _ => ret tt) (ret tt) (ret true) (ret false) (ret tt)
             (fun _ => ret tt) (ret tt).

Definition no_files : FileSystem := fun _ => None.

(** An engine whose script runtime, asked to run the frame update, has the
    script call [game.appRequestQuit()]. *)
Definition quitting_engine : Engine :=
  mkEngine (fun _ => GameScriptInterface.CallMethod quiet_engine "appRequestQuit" [] ;;
                     ret true)
           (fun _ => ret true) (fun _ _ => ret tt) (ret tt).

(** How many of the calls create a cube. *)
Fixpoint cubes_created (cs : list NativeCall) : nat :=
  match cs with
  | [] => O
  | DoCreateCube _ :: later => S (cubes_created later)
  | _ :: later => cubes_created later
  end.

(** * Properties of the bridge *)

Import GameScriptInterface.
Import ScriptTypeExtractor.

(** ** The text of numbers *)

Example to_string_one : to_string 1 = "1.000000".
Proof. reflexivity. Qed.

Example to_string_negative : to_string (-(5 # 2)) = "-2.500000".
Proof. reflexivity. Qed.

Example to_string_tie_to_even : to_string (1 # 128) = "0.007812".
Proof. reflexivity. Qed.

Example format_fixed_two : format_fixed 2 (10 # 4) = "2.50".
Proof. reflexivity. Qed.

Example string_of_Z_negative : string_of_Z (-42) = "-42".
Proof. reflexivity. Qed.

Example truncate_toward_zero : truncate (-(7 # 2)) = -3.
Proof. reflexivity. Qed.

Example game_has_four_props : length (m_props Game.constructed) = 4%nat.
Proof. reflexivity. Qed.

(** ** Auxiliary lemmas and tactics *)

Lemma eqb_false_of_neq (s t : string) : s <> t -> String.eqb s t = false.
Proof. intro H. apply String.eqb_neq. exact H. Qed.

Lemma ValidateArgCount_mismatch (args : ScriptArgs) (n : nat) (label : string) :
  length args <> n ->
  ValidateArgCount args n label
  = Error (label ++ " expects " ++ string_of_Z (Z.of_nat n)
           ++ " arguments, got " ++ string_of_Z (Z.of_nat (length args))).
Proof.
  intro H. unfold ValidateArgCount.
  rewrite (proj2 (Nat.eqb_neq _ _) H). reflexivity.
Qed.

Lemma conforms_length (types : list string) :
  forall args, conforms types args = true -> length args = length types.
Proof.
  induction types as [| t types IH]; intros [| v args] H; try discriminate H.
  - reflexivity.
  - cbn in H. apply andb_true_iff in H. destruct H as [_ H].
    cbn. f_equal. apply IH. exact H.
Qed.

Lemma catch_never_throws {A : Type} (body : M A) (handler : string -> M A) (w : World) :
  (forall e w1 what w2, handler e w1 <> Thrown what w2) ->
  forall what w', catch body handler w <> Thrown what w'.
Proof.
  intros Hhandler what w'. cbn. destruct (body w) as [v w1 | e w1 | w1 | d].
  - discriminate.
  - apply Hhandler.
  - discriminate.
  - discriminate.
Qed.

Lemma catch_all_never_throws {A : Type} (body handler : M A) (w : World) :
  (forall w1 what w2, handler w1 <> Thrown what w2) ->
  (forall w1 w2, handler w1 <> ThrownOther w2) ->
  (forall what w', catch_all body handler w <> Thrown what w')
  /\ (forall w', catch_all body handler w <> ThrownOther w').
Proof.
  intros Hstd Hother. unfold catch_all.
  destruct (body w) as [v w1 | e w1 | w1 | d]; split; intros;
    try discriminate; try apply Hstd; apply Hother.
Qed.

(** Splits membership in a literal list into one goal per element. *)
Ltac each_member H :=
  simpl in H;
  repeat (destruct H as [H | H]; [subst | ]);
  [ .. | contradiction H ].

Ltac unfold_handlers :=
  unfold ExecuteAppRequestQuit, ExecuteCreateCube, ExecuteMoveProp,
    ExecuteGetPlayerPosition, ExecuteMovePlayerCamera, ExecuteUpdate, ExecuteRender,
    ExecuteJavaScriptCommand, ExecuteJavaScriptFile, ExecuteIsAttractMode.

(** Brings an argument list of known length to a list of variables. *)
Ltac open_args args H :=
  repeat (let v := fresh "v" in destruct args as [| v args]; [discriminate H |]);
  destruct args; [clear H | discriminate H].

(** Runs the monadic structure of a call, leaving arithmetic and the
    printing of numbers alone. *)
Ltac run_monad :=
  cbn [bind ret catch raise get put Monad_M MonadState_M MonadExc_M
       update_world DAEMON_LOG DebuggerPrintf deref subscript nth_error
       String.eqb Ascii.eqb Bool.eqb Nat.eqb length negb success Nat.add
       ValidateArgCount ExtractInt ExtractFloat ExtractString ExtractVec3
       App.RequestQuit Game.Update Game.Render Game.GetPlayer Game.IsAttractMode
       Game.CreateCube Game.RollRandomIntInRange Game.SetGameState
       quiet_engine ExecuteScript ExecuteScriptFile frame_Update frame_Render
       g_game g_scriptSubsystem set_game set_rng set_isQuitting add_debuggerOutput
       add_logOutput m_player m_cameraShakeActive Game_latch Game_set_player
       Game_set_props Game_set_gameState].

(** ** Properties: [gameState] *)

Lemma SetProperty_other_string (s : string) (w : World) :
  ~ In s ["ATTRACT"; "attract"; "0"; "GAME"; "game"; "1"] ->
  SetProperty "gameState" (VString s) w = Returned false w.
Proof.
  intro H. unfold SetProperty. cbn.
  rewrite !eqb_false_of_neq; [reflexivity | | | | | |];
    intro E; apply H; rewrite E; simpl; tauto.
Qed.

(** C7: from any state, writing "GAME", "game" or "1" to [gameState]
    returns true and leaves the same state, in which reading [gameState]
    gives "GAME". *)
Theorem SetProperty_GAME_spellings (w : World) :
  SetProperty "gameState" (VString "GAME") w = Returned true (with_gameState GAME w)
  /\ SetProperty "gameState" (VString "game") w = Returned true (with_gameState GAME w)
  /\ SetProperty "gameState" (VString "1") w = Returned true (with_gameState GAME w)
  /\ GetProperty "gameState" (with_gameState GAME w) = Some (VString "GAME").
Proof. repeat split. Qed.

(** C3, as amended: [gameState] accepts exactly six spellings: "ATTRACT",
    "attract" and "0" set the attract state, "GAME", "game" and "1" set the
    game state, each returning true; every other string returns false and
    changes nothing. *)
Theorem SetProperty_gameState_spellings (s : string) (w : World) :
  (In s ["ATTRACT"; "attract"; "0"] ->
   SetProperty "gameState" (VString s) w = Returned true (with_gameState ATTRACT w))
  /\ (In s ["GAME"; "game"; "1"] ->
      SetProperty "gameState" (VString s) w = Returned true (with_gameState GAME w))
  /\ (~ In s ["ATTRACT"; "attract"; "0"; "GAME"; "game"; "1"] ->
      SetProperty "gameState" (VString s) w = Returned false w).
Proof.
  repeat split.
  - simpl. intros [<- | [<- | [<- | []]]]; reflexivity.
  - simpl. intros [<- | [<- | [<- | []]]]; reflexivity.
  - apply SetProperty_other_string.
Qed.

Lemma SetProperty_gameState_spellings_witness :
  SetProperty "gameState" (VString "attract") running_world
  = Returned true (with_gameState ATTRACT running_world)
  /\ SetProperty "gameState" (VString "1") running_world
     = Returned true (with_gameState GAME running_world)
  /\ SetProperty "gameState" (VString "Attract") running_world
     = Returned false running_world.
Proof.
  destruct (SetProperty_gameState_spellings "attract" running_world) as [Ha _].
  destruct (SetProperty_gameState_spellings "1" running_world) as [_ [Hg _]].
  destruct (SetProperty_gameState_spellings "Attract" running_world) as [_ [_ Hn]].
  split; [apply Ha; simpl; tauto | split; [apply Hg; simpl; tauto |]].
  apply Hn. simpl. intros [E | [E | [E | [E | [E | [E | []]]]]]]; discriminate E.
Defined.

(** C3, as stated, fails: "Game" equals "GAME" when case is ignored, yet
    writing it returns false and leaves the attract state. *)
Lemma SetProperty_mixed_case_rejected :
  eq_ignore_case "Game" "GAME" = true
  /\ SetProperty "gameState" (VString "Game") running_world
     = Returned false running_world
  /\ GetProperty "gameState" running_world = Some (VString "ATTRACT").
Proof. repeat split. Qed.

(** C6: [SetProperty] always returns; it returns false for a property other
    than [gameState], for a value that is not a string and for a string
    outside the six spellings; and whenever it returns false the native
    state is the one before the call, so that [gameState] reads as before. *)
Theorem SetProperty_failure_changes_nothing
        (propertyName : string) (value : ScriptValue) (w : World) :
  (exists ok w', SetProperty propertyName value w = Returned ok w'
                 /\ (ok = false -> w' = w
                     /\ GetProperty "gameState" w' = GetProperty "gameState" w))
  /\ (propertyName <> "gameState" -> SetProperty propertyName value w = Returned false w)
  /\ ((forall s, value <> VString s) -> SetProperty propertyName value w = Returned false w)
  /\ (forall s, value = VString s ->
        ~ In s ["ATTRACT"; "attract"; "0"; "GAME"; "game"; "1"] ->
        SetProperty propertyName value w = Returned false w).
Proof.
  assert (Hname : propertyName <> "gameState" ->
                  SetProperty propertyName value w = Returned false w).
  { intro H. unfold SetProperty. rewrite eqb_false_of_neq by exact H. reflexivity. }
  assert (Hvalue : (forall s, value <> VString s) ->
                   SetProperty propertyName value w = Returned false w).
  { intro H. unfold SetProperty.
    destruct (String.eqb propertyName "gameState"); [| reflexivity].
    destruct value; try reflexivity. exfalso. apply (H s). reflexivity. }
  assert (Hstring : forall s, value = VString s ->
                      ~ In s ["ATTRACT"; "attract"; "0"; "GAME"; "game"; "1"] ->
                      SetProperty propertyName value w = Returned false w).
  { intros s -> H. destruct (string_dec propertyName "gameState") as [-> | Hne].
    - apply SetProperty_other_string. exact H.
    - apply Hname. exact Hne. }
  repeat split; try assumption.
  unfold SetProperty.
  destruct (String.eqb propertyName "gameState").
  - destruct value; cbn; try (exists false, w; tauto).
    destruct (String.eqb s "ATTRACT" || String.eqb s "attract" || String.eqb s "0").
    + eexists _, _. split; [reflexivity | discriminate].
    + destruct (String.eqb s "GAME" || String.eqb s "game" || String.eqb s "1").
      * eexists _, _. split; [reflexivity | discriminate].
      * exists false, w. tauto.
  - exists false, w. cbn. tauto.
Qed.

Lemma SetProperty_failure_changes_nothing_witness :
  SetProperty "attractMode" (VBool false) running_world
  = Returned false running_world
  /\ SetProperty "gameState" (VInt 1) running_world
     = Returned false running_world
  /\ SetProperty "gameState" (VString "nonsense") running_world
     = Returned false running_world.
Proof.
  split; [| split].
  - apply (SetProperty_failure_changes_nothing "attractMode" (VBool false)
                                               running_world).
    discriminate.
  - apply (SetProperty_failure_changes_nothing "gameState" (VInt 1)
                                               running_world).
    discriminate.
  - apply (proj2 (proj2 (proj2
             (SetProperty_failure_changes_nothing "gameState" (VString "nonsense")
                                                  running_world)))
             "nonsense" eq_refl).
    simpl. intros [E | [E | [E | [E | [E | [E | []]]]]]]; discriminate E.
Defined.

(** ** Properties: the frame steps *)

(** C2, as amended: when the script runtime is unavailable, [UpdateJS] and
    [RenderJS] do nothing at all: they return with the process state
    untouched, whatever the native frame code would have done. *)
Theorem frame_steps_skip_without_scripts (engine : Engine) (w : World) :
  Game.script_ready w = false ->
  Game.UpdateJS engine w = Returned tt w /\ Game.RenderJS engine w = Returned tt w.
Proof.
  intro H. unfold Game.UpdateJS, Game.RenderJS. cbn. rewrite H. split; reflexivity.
Qed.

Lemma frame_steps_skip_without_scripts_witness :
  Game.UpdateJS busy_engine scriptless_world
  = Returned tt scriptless_world
  /\ Game.RenderJS busy_engine scriptless_world
     = Returned tt scriptless_world.
Proof.
  apply (frame_steps_skip_without_scripts busy_engine scriptless_world).
  reflexivity.
Defined.

(** C2, as stated, fails: with no script runtime and an engine whose
    native update requests quit and whose native render writes a line,
    [UpdateJS] and [RenderJS] leave the state as it is, which neither native
    method does. *)
Lemma frame_steps_do_not_fall_back :
  Game.script_ready scriptless_world = false
  /\ Game.UpdateJS busy_engine scriptless_world
     <> Game.Update busy_engine (gameClockDelta scriptless_world)
                    (systemClockDelta scriptless_world) scriptless_world
  /\ Game.RenderJS busy_engine scriptless_world <> Game.Render busy_engine scriptless_world
  /\ ~ falls_back_to_native busy_engine scriptless_world.
Proof.
  split; [reflexivity |].
  split; [discriminate |].
  split; [discriminate |].
  intros [Hupdate _]. discriminate Hupdate.
Qed.

(** ** Properties: dispatch *)

(** C1: the method list advertises [getFileTimestamp], taking one string,
    but [CallMethod] has no case for it: whatever the arguments, the call is
    answered with the unknown-method error and the state is untouched. *)
Theorem getFileTimestamp_listed_but_unknown
        (engine : Engine) (args : ScriptArgs) (w : World) :
  In (mkScriptMethodInfo "getFileTimestamp" "取得檔案的最後修改時間戳記" ["string"] "number")
     GetAvailableMethods
  /\ CallMethod engine "getFileTimestamp" args w
     = Returned (Error "未知的方法: getFileTimestamp") w.
Proof.
  split; [| reflexivity].
  unfold GetAvailableMethods. simpl. tauto.
Qed.

(** The missing case is the only one: with an engine that runs scripts and
    frames quietly, a player in the game and the script runtime started,
    each of the ten other listed methods, called with arguments of the
    listed types, returns a Success result. *)
Lemma dispatched_methods_succeed (info : ScriptMethodInfo) (args : ScriptArgs) (w : World) :
  In info GetAvailableMethods ->
  name info <> "getFileTimestamp" ->
  conforms (parameters info) args = true ->
  (exists p, m_player (g_game w) = Some p) ->
  Game.script_ready w = true ->
  exists result w',
    CallMethod quiet_engine (name info) args w = Returned (Success result) w'.
Proof.
  intros Hin Hname Htypes [p Hp] Hready.
  pose proof (conforms_length _ _ Htypes) as Hlen.
  unfold Game.script_ready in Hready.
  destruct (g_scriptSubsystem w) as [scripts |] eqn:Hscripts; [| discriminate Hready].
  unfold GetAvailableMethods in Hin.
  each_member Hin; cbn [name parameters length] in *; try congruence;
    open_args args Hlen;
    repeat match goal with
           | v : ScriptValue |- _ => destruct v
           end;
    try discriminate Htypes; clear Htypes;
    unfold CallMethod; unfold_handlers;
    unfold Game.MoveProp, Game.MovePlayerCamera, Game.GetPlayer, Game.IsAttractMode,
      Game.ExecuteJavaScriptCommand, Game.ExecuteJavaScriptFile;
    run_monad; rewrite ?Hp, ?Hscripts, ?Hready; run_monad;
    rewrite ?Hp, ?Hscripts, ?Hready; run_monad;
    repeat match goal with
           | |- context [if ?c then _ else _] => destruct c
           end;
    run_monad; rewrite ?Hp, ?Hscripts, ?Hready; run_monad;
    eexists _, _; reflexivity.
Qed.

(** C5: for each of the ten dispatched methods, a call whose argument count
    differs from the listed arity returns the count error of
    [ValidateArgCount], whatever the arguments are, and leaves the process
    state as it was: no prop is created, no position moves, no state
    changes. *)
Theorem CallMethod_checks_count_first
        (engine : Engine) (info : ScriptMethodInfo) (args : ScriptArgs) (w : World) :
  In info GetAvailableMethods ->
  name info <> "getFileTimestamp" ->
  length args <> length (parameters info) ->
  exists label : string,
    CallMethod engine (name info) args w
    = Returned (Error (label ++ " expects "
                       ++ string_of_Z (Z.of_nat (length (parameters info)))
                       ++ " arguments, got " ++ string_of_Z (Z.of_nat (length args)))) w.
Proof.
  intros Hin Hname Hlen. unfold GetAvailableMethods in Hin.
  each_member Hin; cbn [name parameters length] in *; try congruence;
    eexists; unfold CallMethod; cbn [String.eqb Ascii.eqb Bool.eqb];
    unfold_handlers;
    rewrite ValidateArgCount_mismatch by exact Hlen; reflexivity.
Qed.

Lemma CallMethod_checks_count_first_witness :
  exists label : string,
    CallMethod quiet_engine "createCube" [VNumber 1] running_world
    = Returned (Error (label ++ " expects 3 arguments, got 1")) running_world.
Proof.
  apply (CallMethod_checks_count_first
           quiet_engine
           (mkScriptMethodInfo "createCube" "在指定位置創建一個立方體"
                               ["float"; "float"; "float"] "string")
           [VNumber 1] running_world).
  - unfold GetAvailableMethods. simpl. tauto.
  - discriminate.
  - discriminate.
Defined.

(** *** Which exceptions a call can end in *)

Lemma std_only_ret {A : Type} (v : A) : throws_std_only (ret v).
Proof. intros w w'. discriminate. Qed.

Lemma std_only_bind {A B : Type} (c : M A) (k : A -> M B) :
  throws_std_only c -> (forall v, throws_std_only (k v)) -> throws_std_only (bind c k).
Proof.
  intros Hc Hk w w'. cbn. destruct (c w) as [v w1 | e w1 | w1 | d] eqn:Hrun.
  - apply Hk.
  - discriminate.
  - exfalso. exact (Hc _ _ Hrun).
  - discriminate.
Qed.

Lemma std_only_catch {A : Type} (c : M A) (h : string -> M A) :
  throws_std_only c -> (forall e, throws_std_only (h e)) -> throws_std_only (catch c h).
Proof.
  intros Hc Hh w w'. cbn. destruct (c w) as [v w1 | e w1 | w1 | d] eqn:Hrun.
  - discriminate.
  - apply Hh.
  - exfalso. exact (Hc _ _ Hrun).
  - discriminate.
Qed.

Lemma std_only_raise {A : Type} (e : string) : throws_std_only (raise e : M A).
Proof. intros w w'. discriminate. Qed.

Lemma std_only_get : throws_std_only (get : M World).
Proof. intros w w'. discriminate. Qed.

Lemma std_only_put (w0 : World) : throws_std_only (put w0 : M unit).
Proof. intros w w'. discriminate. Qed.

Lemma std_only_die {A : Type} (d : string) : throws_std_only (ERROR_AND_DIE d : M A).
Proof. intros w w'. discriminate. Qed.

Lemma std_only_deref {A : Type} (p : option A) : throws_std_only (deref p).
Proof. intros w w'. destruct p; discriminate. Qed.

Lemma std_only_update_world (f : World -> World) : throws_std_only (update_world f).
Proof. intros w w'. discriminate. Qed.

(** One step through the structure of a computation. *)
Ltac std_only_step :=
  match goal with
  | |- throws_std_only (bind _ _) => apply std_only_bind; [| intro]
  | |- throws_std_only (catch _ _) => apply std_only_catch; [| intro]
  | |- throws_std_only (ret _) => apply std_only_ret
  | |- throws_std_only (raise _) => apply std_only_raise
  | |- throws_std_only get => apply std_only_get
  | |- throws_std_only (put _) => apply std_only_put
  | |- throws_std_only (ERROR_AND_DIE _) => apply std_only_die
  | |- throws_std_only (deref _) => apply std_only_deref
  | |- throws_std_only (subscript _ _) => apply std_only_deref
  | |- throws_std_only (update_world _) => apply std_only_update_world
  | |- throws_std_only (DAEMON_LOG _ _ _) => apply std_only_update_world
  | |- throws_std_only (DebuggerPrintf _) => apply std_only_update_world
  | |- throws_std_only (if ?b then _ else _) => destruct b
  | |- throws_std_only (match ?x with _ => _ end) => destruct x
  | |- throws_std_only (let _ := _ in _) => cbv zeta
  end.

Lemma std_only_ExtractInt v : throws_std_only (ExtractInt v).
Proof. unfold ExtractInt. repeat std_only_step. Qed.

Lemma std_only_ExtractFloat v : throws_std_only (ExtractFloat v).
Proof. unfold ExtractFloat. repeat std_only_step. Qed.

Lemma std_only_ExtractString v : throws_std_only (ExtractString v).
Proof. unfold ExtractString. repeat std_only_step. Qed.

Lemma std_only_ExtractVec3 args i : throws_std_only (ExtractVec3 args i).
Proof.
  unfold ExtractVec3.
  repeat first [apply std_only_ExtractFloat | std_only_step].
Qed.

Lemma std_only_CreateCube position : throws_std_only (Game.CreateCube position).
Proof. unfold Game.CreateCube, Game.RollRandomIntInRange. repeat std_only_step. Qed.

Lemma std_only_MoveProp i position : throws_std_only (Game.MoveProp i position).
Proof. unfold Game.MoveProp. repeat std_only_step. Qed.

Lemma std_only_MovePlayerCamera offset : throws_std_only (Game.MovePlayerCamera offset).
Proof. unfold Game.MovePlayerCamera. repeat std_only_step. Qed.

Section WithStdOnlyEngine.
Variable engine : Engine.
Hypothesis Hengine : engine_throws_std_only engine.

Lemma std_only_Game_ExecuteJavaScriptCommand command :
  throws_std_only (Game.ExecuteJavaScriptCommand engine command).
Proof.
  unfold Game.ExecuteJavaScriptCommand.
  repeat first [apply (proj1 Hengine) | std_only_step].
Qed.

Lemma std_only_Game_ExecuteJavaScriptFile filename :
  throws_std_only (Game.ExecuteJavaScriptFile engine filename).
Proof.
  unfold Game.ExecuteJavaScriptFile.
  repeat first [apply (proj1 (proj2 Hengine)) | std_only_step].
Qed.

Lemma std_only_CallMethod methodName args :
  throws_std_only (CallMethod engine methodName args).
Proof.
  unfold CallMethod.
  apply std_only_catch; [| intro; apply std_only_ret].
  repeat match goal with
         | |- throws_std_only (if ?b then _ else _) => destruct b
         end;
    [unfold ExecuteAppRequestQuit | unfold ExecuteCreateCube | unfold ExecuteMoveProp
     | unfold ExecuteGetPlayerPosition | unfold ExecuteMovePlayerCamera
     | unfold ExecuteUpdate | unfold ExecuteRender | unfold ExecuteJavaScriptCommand
     | unfold ExecuteJavaScriptFile | unfold ExecuteIsAttractMode | ];
    unfold App.RequestQuit, Game.Update, Game.Render;
    repeat first
      [ apply std_only_ExtractInt | apply std_only_ExtractFloat
      | apply std_only_ExtractString | apply std_only_ExtractVec3
      | apply std_only_CreateCube | apply std_only_MoveProp
      | apply std_only_MovePlayerCamera
      | apply std_only_Game_ExecuteJavaScriptCommand
      | apply std_only_Game_ExecuteJavaScriptFile
      | apply (proj1 (proj2 (proj2 Hengine))) | apply (proj2 (proj2 (proj2 Hengine)))
      | std_only_step ].
Qed.
End WithStdOnlyEngine.




(** ** Properties: props *)

(** C8: [createCube(1.0, 2.0, 3.0)] returns Success with a message that
    echoes the position with six decimals, hence contains "1.00", "2.00" and
    "3.00", and appends exactly one prop, placed at (1, 2, 3), to the props
    of the game. *)
Theorem createCube_adds_one_prop (engine : Engine) (w : World) :
  let msg := "立方體創建成功，位置: (1.000000, 2.000000, 3.000000)" in
  exists (cube : Prop_) (w' : World),
    CallMethod engine "createCube" [VNumber 1; VNumber 2; VNumber 3] w
    = Returned (Success (Some (VString msg))) w'
    /\ m_props (g_game w') = (m_props (g_game w) ++ [cube])%list
    /\ Prop_position cube = mkVec3 1 2 3
    /\ length (m_props (g_game w')) = S (length (m_props (g_game w)))
    /\ contains "1.00" msg = true
    /\ contains "2.00" msg = true
    /\ contains "3.00" msg = true.
Proof.
  intro msg. eexists _, _. split; [reflexivity |].
  cbn. repeat split.
  rewrite length_app. cbn. lia.
Qed.

Lemma wrap32_le (n : Z) : 0 <= n -> wrap32 n <= n.
Proof.
  intro H. unfold wrap32.
  assert (Hmod : (n + 2 ^ 31) mod 2 ^ 32 <= n + 2 ^ 31) by (apply Z.mod_le; lia).
  lia.
Qed.

Lemma MoveProp_refuses (w : World) (propIndex : Z) (newPosition : Vec3) :
  propIndex < 0 \/ Z.of_nat (length (m_props (g_game w))) <= propIndex ->
  Game.MoveProp propIndex newPosition w
  = Returned tt (add_debuggerOutput
                   (invalid_index_warning propIndex (length (m_props (g_game w)))) w).
Proof.
  intro H. unfold Game.MoveProp. cbn.
  assert (Hguard : (0 <=? propIndex)
                   && (propIndex <? wrap32 (Z.of_nat (length (m_props (g_game w))))) = false).
  { apply andb_false_iff. destruct H as [H | H].
    - left. apply Z.leb_gt. exact H.
    - right. apply Z.ltb_ge.
      pose proof (wrap32_le (Z.of_nat (length (m_props (g_game w)))) (Zle_0_nat _)). lia. }
  rewrite Hguard. reflexivity.
Qed.

(** C9: for every index outside [[0, size)], [Game::MoveProp] writes the
    invalid-index warning to the debugger output and returns, changing
    nothing else: the game, and so every prop and its position, is as
    before.  Through the bridge, [moveProp] with a first argument that
    extracts to such an index likewise returns (a Success result) in that
    same state. *)
Theorem MoveProp_out_of_range
        (engine : Engine) (w : World) (indexArg : ScriptValue) (propIndex : Z)
        (newPosition : Vec3) :
  ExtractInt indexArg w = Returned propIndex w ->
  propIndex < 0 \/ Z.of_nat (length (m_props (g_game w))) <= propIndex ->
  let refused :=
    add_debuggerOutput
      (invalid_index_warning propIndex (length (m_props (g_game w)))) w in
  Game.MoveProp propIndex newPosition w = Returned tt refused
  /\ g_game refused = g_game w
  /\ m_props (g_game refused) = m_props (g_game w)
  /\ exists msg,
       CallMethod engine "moveProp"
                  [indexArg; VNumber (x newPosition); VNumber (y newPosition);
                   VNumber (z newPosition)] w
       = Returned (Success (Some (VString msg))) refused.
Proof.
  intros Hindex H refused. repeat split.
  - apply MoveProp_refuses. exact H.
  - eexists. unfold CallMethod, ExecuteMoveProp.
    cbn -[Game.MoveProp ExtractInt]. rewrite Hindex.
    cbn -[Game.MoveProp]. rewrite MoveProp_refuses by exact H. reflexivity.
Qed.

Lemma MoveProp_out_of_range_witness :
  exists msg,
    CallMethod quiet_engine "moveProp" [VNumber 99; VNumber 0; VNumber 0; VNumber 0]
               running_world
    = Returned (Success (Some (VString msg)))
               (add_debuggerOutput
                  ("警告：JavaScript 請求移動無效的物件索引 99（總共 4 個物件）" ++ newline)
                  running_world).
Proof.
  apply (MoveProp_out_of_range quiet_engine running_world (VNumber 99) 99 (mkVec3 0 0 0)).
  - reflexivity.
  - right. cbn. lia.
Defined.

(** ** Properties: the camera shake *)

Lemma MovePlayerCamera_step (w : World) (p : Player) (offset : Vec3) :
  m_player (g_game w) = Some p ->
  let origin :=
    if m_cameraShakeActive (g_game w) then m_originalPlayerPosition (g_game w)
    else Player_position p in
  exists w',
    Game.MovePlayerCamera offset w = Returned tt w'
    /\ m_cameraShakeActive (g_game w') = true
    /\ m_originalPlayerPosition (g_game w') = origin
    /\ m_player (g_game w') = Some (Player_set_position (Vec3_add origin offset) p).
Proof.
  intros Hp origin. subst origin. unfold Game.MovePlayerCamera. cbn. rewrite Hp.
  destruct (m_cameraShakeActive (g_game w)) eqn:Hactive; cbn.
  - eexists. split; [reflexivity |]. cbn. rewrite Hactive. repeat split.
  - eexists. split; [reflexivity |]. cbn. repeat split.
Qed.

(** No native call reopens the latch or moves the origin. *)
Lemma run_call_keeps_latch (c : NativeCall) (origin : Vec3) (w : World) :
  latched origin w ->
  exists w', run_call c w = Returned tt w' /\ latched origin w'.
Proof.
  intros [[p Hp] [Hactive Horigin]]. destruct c as [pos | i pos | s | offset].
  - cbn. unfold Game.CreateCube. cbn.
    eexists. split; [reflexivity |]. cbn. repeat split; eauto.
  - cbn. unfold Game.MoveProp. cbn.
    destruct ((0 <=? i) && (i <? wrap32 (Z.of_nat (length (m_props (g_game w))))));
      cbn; (eexists; split; [reflexivity |]); cbn; repeat split; eauto.
  - cbn. unfold Game.SetGameState. cbn.
    eexists. split; [reflexivity |]. cbn. repeat split; eauto.
  - destruct (MovePlayerCamera_step w p offset Hp) as [w' [Hrun [Ha [Ho Hp']]]].
    rewrite Hactive in Ho. exists w'. split; [exact Hrun |].
    repeat split; eauto. congruence.
Qed.

Lemma run_calls_keep_latch (cs : list NativeCall) :
  forall (origin : Vec3) (w : World),
    latched origin w ->
    exists w', run_calls cs w = Returned tt w' /\ latched origin w'.
Proof.
  induction cs as [| c later IH]; intros origin w Hlatched.
  - exists w. split; [reflexivity | exact Hlatched].
  - destruct (run_call_keeps_latch c origin w Hlatched) as [w1 [Hrun1 Hlatched1]].
    destruct (IH origin w1 Hlatched1) as [w' [Hrun' Hlatched']].
    exists w'. split; [| exact Hlatched'].
    cbn. cbn in Hrun1. rewrite Hrun1. exact Hrun'.
Qed.

(** C10: with the latch open, a first [MovePlayerCamera] records the
    position the player then has as the origin; whatever native calls
    follow, camera moves among them, the latch stays closed on that origin;
    and a later [MovePlayerCamera] puts the player at that origin plus its
    own offset alone. *)
Theorem MovePlayerCamera_offsets_do_not_add_up
        (w : World) (p : Player) (first : Vec3) (between : list NativeCall) (second : Vec3) :
  m_player (g_game w) = Some p ->
  m_cameraShakeActive (g_game w) = false ->
  exists w1 w2 p1 p2,
    Game.MovePlayerCamera first w = Returned tt w1
    /\ latched (Player_position p) w1
    /\ m_player (g_game w1) = Some p1
    /\ Player_position p1 = Vec3_add (Player_position p) first
    /\ (run_calls between ;; Game.MovePlayerCamera second) w1 = Returned tt w2
    /\ latched (Player_position p) w2
    /\ m_player (g_game w2) = Some p2
    /\ Player_position p2 = Vec3_add (Player_position p) second.
Proof.
  intros Hp Hactive.
  destruct (MovePlayerCamera_step w p first Hp) as [w1 [Hrun1 [Ha1 [Ho1 Hp1]]]].
  rewrite Hactive in Ho1, Hp1.
  assert (Hlatched1 : latched (Player_position p) w1) by (repeat split; eauto).
  destruct (run_calls_keep_latch between _ w1 Hlatched1)
    as [wb [Hrunb [[pb Hpb] [Hab Hob]]]].
  destruct (MovePlayerCamera_step wb pb second Hpb) as [w2 [Hrun2 [Ha2 [Ho2 Hp2]]]].
  rewrite Hab, Hob in Ho2, Hp2.
  exists w1, w2. eexists _, _.
  split; [exact Hrun1 |]. split; [exact Hlatched1 |].
  split; [exact Hp1 |]. split; [reflexivity |].
  split; [cbn; cbn in Hrunb; rewrite Hrunb; exact Hrun2 |].
  split; [repeat split; eauto |].
  split; [exact Hp2 | reflexivity].
Qed.

Lemma MovePlayerCamera_offsets_do_not_add_up_witness :
  exists w1 w2 p1 p2,
    Game.MovePlayerCamera (mkVec3 (1 # 2) 0 0) running_world = Returned tt w1
    /\ latched (mkVec3 (-2) 0 1) w1
    /\ m_player (g_game w1) = Some p1
    /\ Player_position p1 = Vec3_add (mkVec3 (-2) 0 1) (mkVec3 (1 # 2) 0 0)
    /\ (run_calls [DoCreateCube Vec3_ZERO] ;; Game.MovePlayerCamera (mkVec3 0 (1 # 4) 0)) w1
       = Returned tt w2
    /\ latched (mkVec3 (-2) 0 1) w2
    /\ m_player (g_game w2) = Some p2
    /\ Player_position p2 = Vec3_add (mkVec3 (-2) 0 1) (mkVec3 0 (1 # 4) 0).
Proof.
  apply (MovePlayerCamera_offsets_do_not_add_up
           running_world
           (mkPlayer (Entity_set_position (mkVec3 (-2) 0 1) Entity_new))
           (mkVec3 (1 # 2) 0 0) [DoCreateCube Vec3_ZERO] (mkVec3 0 (1 # 4) 0));
    reflexivity.
Defined.

(** The two offsets of the witness do not add up: the player ends a quarter
    to the side of the origin, not also half a unit ahead of it. *)
Example camera_shake_twice :
  exists w',
    (Game.MovePlayerCamera (mkVec3 (1 # 2) 0 0) ;;
     Game.MovePlayerCamera (mkVec3 0 (1 # 4) 0)) running_world
    = Returned tt w'
    /\ option_map Player_position (m_player (g_game w'))
       = Some (mkVec3 (-2 + 0) (0 + (1 # 4)) (1 + 0))
    /\ option_map Player_position (m_player (g_game w'))
       <> Some (mkVec3 (-2 + (1 # 2) + 0) (0 + 0 + (1 # 4)) (1 + 0 + 0)).
Proof.
  cbn. eexists. split; [reflexivity |]. split; [reflexivity |]. cbn. discriminate.
Qed.

(** * Further properties *)

(** ** Props *)

Lemma ValidateArgCount_match (args : ScriptArgs) (n : nat) (label : string) :
  length args = n -> ValidateArgCount args n label = Success None.
Proof.
  intro H. unfold ValidateArgCount. rewrite H, Nat.eqb_refl. reflexivity.
Qed.

Lemma wrap32_small (n : Z) : 0 <= n < 2 ^ 31 -> wrap32 n = n.
Proof.
  intro H. unfold wrap32. rewrite Z.mod_small; lia.
Qed.

Lemma update_at_length {A : Type} (f : A -> A) (l : list A) :
  forall i, length (update_at i f l) = length l.
Proof.
  induction l as [| h t IH]; intros [| i]; cbn; try reflexivity.
  rewrite IH. reflexivity.
Qed.

Lemma update_at_same {A : Type} (f : A -> A) (l : list A) :
  forall i, nth_error (update_at i f l) i = option_map f (nth_error l i).
Proof.
  induction l as [| h t IH]; intros [| i]; cbn; try reflexivity.
  apply IH.
Qed.

Lemma update_at_other {A : Type} (f : A -> A) (l : list A) :
  forall i j, i <> j -> nth_error (update_at i f l) j = nth_error l j.
Proof.
  induction l as [| h t IH]; intros [| i] [| j] H; cbn; try reflexivity.
  - contradiction H. reflexivity.
  - apply IH. intro E. apply H. rewrite E. reflexivity.
Qed.

(** X1: for an index within the props (fewer than 2^31 of them),
    [Game::MoveProp] puts the prop at that index on the new position and
    keeps the rest of it; every other prop, the number of props, the player
    and the debugger output are as before.  Through the bridge, [moveProp]
    with that index and three numbers does the same and returns Success with
    the index and the position echoed. *)
Theorem MoveProp_in_range
        (engine : Engine) (w : World) (propIndex : Z) (newPosition : Vec3) :
  0 <= propIndex < Z.of_nat (length (m_props (g_game w))) ->
  Z.of_nat (length (m_props (g_game w))) < 2 ^ 31 ->
  exists w',
    Game.MoveProp propIndex newPosition w = Returned tt w'
    /\ length (m_props (g_game w')) = length (m_props (g_game w))
    /\ nth_error (m_props (g_game w')) (Z.to_nat propIndex)
       = option_map (Game.set_entity_position newPosition)
                    (nth_error (m_props (g_game w)) (Z.to_nat propIndex))
    /\ option_map Prop_position (nth_error (m_props (g_game w')) (Z.to_nat propIndex))
       = Some newPosition
    /\ (forall j, j <> Z.to_nat propIndex ->
          nth_error (m_props (g_game w')) j = nth_error (m_props (g_game w)) j)
    /\ debuggerOutput w' = debuggerOutput w
    /\ m_player (g_game w') = m_player (g_game w)
    /\ CallMethod engine "moveProp"
                  [VInt propIndex; VNumber (x newPosition); VNumber (y newPosition);
                   VNumber (z newPosition)] w
       = Returned (Success (Some (VString
                    ("道具 " ++ string_of_Z propIndex ++ " 移動成功，新位置: ("
                     ++ to_string (x newPosition) ++ ", " ++ to_string (y newPosition) ++ ", "
                     ++ to_string (z newPosition) ++ ")")))) w'.
Proof.
  intros Hrange Hsize.
  assert (Hguard : (0 <=? propIndex)
                   && (propIndex <? wrap32 (Z.of_nat (length (m_props (g_game w))))) = true).
  { rewrite wrap32_small by lia. apply andb_true_iff. split.
    - apply Z.leb_le. lia.
    - apply Z.ltb_lt. lia. }
  assert (Hmove : exists w', Game.MoveProp propIndex newPosition w = Returned tt w'
                             /\ g_game w' = Game_set_props
                                              (Game.set_prop_position
                                                 (Z.to_nat propIndex) newPosition
                                                 (m_props (g_game w))) (g_game w)
                             /\ debuggerOutput w' = debuggerOutput w).
  { unfold Game.MoveProp. cbn [bind get put Monad_M MonadState_M].
    rewrite Hguard. eexists. split; [reflexivity |]. split; reflexivity. }
  destruct Hmove as [w' [Hrun [Hgame Hdebug]]].
  exists w'. split; [exact Hrun |]. rewrite Hgame.
  cbn [Game_set_props m_props m_player]. unfold Game.set_prop_position.
  split; [apply update_at_length |].
  split; [apply update_at_same |].
  split.
  { rewrite update_at_same.
    destruct (nth_error (m_props (g_game w)) (Z.to_nat propIndex)) as [p |] eqn:Hp.
    - reflexivity.
    - apply nth_error_None in Hp. lia. }
  split.
  { intros j Hj. apply update_at_other. intro E. apply Hj. rewrite E. reflexivity. }
  split; [exact Hdebug |]. split; [reflexivity |].
  unfold CallMethod, ExecuteMoveProp.
  cbn [String.eqb Ascii.eqb Bool.eqb ValidateArgCount length Nat.eqb success negb
       catch bind ret Monad_M MonadExc_M subscript deref nth_error ExtractInt ExtractVec3
       ExtractFloat Nat.add].
  destruct newPosition as [px py pz]. cbn [x y z]. rewrite Hrun. reflexivity.
Qed.

Lemma MoveProp_in_range_witness :
  exists w',
    Game.MoveProp 2 (mkVec3 1 1 1) running_world = Returned tt w'
    /\ option_map Prop_position (nth_error (m_props (g_game w')) 2) = Some (mkVec3 1 1 1)
    /\ option_map Prop_position (nth_error (m_props (g_game w')) 0) = Some (mkVec3 2 2 0).
Proof.
  destruct (MoveProp_in_range quiet_engine running_world 2 (mkVec3 1 1 1))
    as [w' [Hrun [_ [_ [Hmoved [Hrest _]]]]]].
  - cbn. lia.
  - cbn. lia.
  - exists w'. split; [exact Hrun |]. split; [exact Hmoved |].
    rewrite (Hrest 0%nat) by discriminate. reflexivity.
Defined.

(** X2: [createCube] with three arguments that extract to a position
    returns Success with the position echoed by [std::to_string], and its
    only changes to the game are one prop more, a cube at that position with
    an opaque colour, after the props there were: the earlier props, the
    player, the game state, the camera latch, the quit flag and the debugger
    output are as before, and three random draws have been taken. *)
Theorem createCube_appends
        (engine : Engine) (args : ScriptArgs) (position : Vec3) (w : World) :
  length args = 3%nat ->
  ExtractVec3 args 0 w = Returned position w ->
  exists cube w',
    CallMethod engine "createCube" args w
    = Returned (Success (Some (VString
                 ("立方體創建成功，位置: (" ++ to_string (x position) ++ ", "
                  ++ to_string (y position) ++ ", " ++ to_string (z position) ++ ")")))) w'
    /\ m_props (g_game w') = (m_props (g_game w) ++ [cube])%list
    /\ Prop_position cube = position
    /\ a (m_color (prop_entity cube)) = 255
    /\ m_vertexes cube = [CubeVerts]
    /\ m_player (g_game w') = m_player (g_game w)
    /\ m_gameState (g_game w') = m_gameState (g_game w)
    /\ m_cameraShakeActive (g_game w') = m_cameraShakeActive (g_game w)
    /\ m_originalPlayerPosition (g_game w') = m_originalPlayerPosition (g_game w)
    /\ m_isQuitting w' = m_isQuitting w
    /\ debuggerOutput w' = debuggerOutput w
    /\ rng_taken (g_rng w') = (rng_taken (g_rng w) + 3)%nat.
Proof.
  intros Hlen Hposition.
  unfold CallMethod, ExecuteCreateCube.
  cbn [String.eqb Ascii.eqb Bool.eqb].
  rewrite ValidateArgCount_match by exact Hlen.
  cbn [success negb catch bind MonadExc_M Monad_M].
  rewrite Hposition.
  unfold Game.CreateCube. run_monad.
  eexists _, _. split; [reflexivity |].
  cbn. repeat split.
  rewrite Nat.add_comm. reflexivity.
Qed.

Lemma createCube_appends_witness :
  exists cube w',
    CallMethod quiet_engine "createCube" [VInt 4; VNumber (1 # 2); VNumber (-3)] running_world
    = Returned (Success (Some (VString "立方體創建成功，位置: (4.000000, 0.500000, -3.000000)"))) w'
    /\ m_props (g_game w') = (m_props (g_game running_world) ++ [cube])%list
    /\ Prop_position cube = mkVec3 (inject_Z 4) (1 # 2) (-3).
Proof.
  destruct (createCube_appends quiet_engine [VInt 4; VNumber (1 # 2); VNumber (-3)]
                               (mkVec3 (inject_Z 4) (1 # 2) (-3)) running_world
                               eq_refl eq_refl)
    as [cube [w' [Hrun [Hprops [Hpos _]]]]].
  exists cube, w'. split; [exact Hrun |]. split; [exact Hprops | exact Hpos].
Defined.

(** X3: a method name that is none of the ten names [CallMethod] compares
    with is answered by the unknown-method error naming it, and the state is
    untouched; the comparison is exact, so a name in another case is
    unknown. *)
Theorem CallMethod_unknown_method
        (engine : Engine) (methodName : string) (args : ScriptArgs) (w : World) :
  ~ In methodName ["appRequestQuit"; "createCube"; "moveProp"; "getPlayerPosition";
                   "movePlayerCamera"; "update"; "render"; "executeCommand";
                   "executeFile"; "isAttractMode"] ->
  CallMethod engine methodName args w = Returned (Error ("未知的方法: " ++ methodName)) w.
Proof.
  intro H. unfold CallMethod.
  rewrite !eqb_false_of_neq; [reflexivity | | | | | | | | | |];
    intro E; apply H; rewrite E; simpl; tauto.
Qed.

Lemma CallMethod_unknown_method_witness :
  CallMethod quiet_engine "CreateCube" [VNumber 1; VNumber 2; VNumber 3] running_world
  = Returned (Error "未知的方法: CreateCube") running_world.
Proof.
  apply (CallMethod_unknown_method quiet_engine "CreateCube"
                                   [VNumber 1; VNumber 2; VNumber 3] running_world).
  simpl. intros [E | [E | [E | [E | [E | [E | [E | [E | [E | [E | []]]]]]]]]]]; discriminate E.
Defined.

(** ** Properties *)

(** X4: [GetProperty] has a value exactly for the names that
    [GetAvailableProperties] lists: [attractMode] reads as a boolean,
    [gameState] as one of the strings "ATTRACT" and "GAME", and any other
    name as the empty value. *)
Theorem GetProperty_listed (propertyName : string) (w : World) :
  (In propertyName GetAvailableProperties <-> GetProperty propertyName w <> None)
  /\ (exists b, GetProperty "attractMode" w = Some (VBool b))
  /\ (GetProperty "gameState" w = Some (VString "ATTRACT")
      \/ GetProperty "gameState" w = Some (VString "GAME")).
Proof.
  split; [| split].
  - unfold GetProperty, GetAvailableProperties. split.
    + simpl. intros [<- | [<- | []]]; cbn.
      * discriminate.
      * destruct (Game.GetGameState w); discriminate.
    + intro H.
      destruct (String.eqb propertyName "attractMode") eqn:Ea.
      * apply String.eqb_eq in Ea. subst. simpl. tauto.
      * destruct (String.eqb propertyName "gameState") eqn:Eg.
        -- apply String.eqb_eq in Eg. subst. simpl. tauto.
        -- contradiction H. reflexivity.
  - eexists. reflexivity.
  - unfold GetProperty. cbn. destruct (Game.GetGameState w); [left | right]; reflexivity.
Qed.

Lemma with_own_gameState (w : World) : with_gameState (m_gameState (g_game w)) w = w.
Proof. destruct w as [[player props state origin active] ? ? ? ? ? ? ?]. reflexivity. Qed.

(** X5: what [GetProperty] reads for [gameState] is accepted back by
    [SetProperty], which then returns true and leaves the state exactly as
    it was. *)
Theorem gameState_read_then_write (value : ScriptValue) (w : World) :
  GetProperty "gameState" w = Some value ->
  SetProperty "gameState" value w = Returned true w.
Proof.
  unfold GetProperty, Game.GetGameState. cbn [String.eqb Ascii.eqb Bool.eqb].
  destruct (m_gameState (g_game w)) eqn:Hstate; intro H; injection H as <-.
  - change (Returned true (with_gameState ATTRACT w) = Returned true w).
    rewrite <- Hstate, with_own_gameState. reflexivity.
  - change (Returned true (with_gameState GAME w) = Returned true w).
    rewrite <- Hstate, with_own_gameState. reflexivity.
Qed.

Lemma gameState_read_then_write_witness :
  SetProperty "gameState" (VString "ATTRACT") running_world = Returned true running_world.
Proof.
  apply (gameState_read_then_write (VString "ATTRACT") running_world). reflexivity.
Defined.

(** X6: whatever the property name and the value, [SetProperty] returns, and
    the state it leaves differs from the one it found in the game state
    alone: props, player, camera latch, quit flag, random generator, clocks
    and outputs are never touched. *)
Theorem SetProperty_touches_gameState_only
        (propertyName : string) (value : ScriptValue) (w : World) :
  exists ok s, SetProperty propertyName value w = Returned ok (with_gameState s w).
Proof.
  unfold SetProperty.
  destruct (String.eqb propertyName "gameState").
  - destruct value; cbn;
      try (exists false, (m_gameState (g_game w)); rewrite with_own_gameState; reflexivity).
    destruct (String.eqb s "ATTRACT" || String.eqb s "attract" || String.eqb s "0").
    + exists true, ATTRACT. reflexivity.
    + destruct (String.eqb s "GAME" || String.eqb s "game" || String.eqb s "1").
      * exists true, GAME. reflexivity.
      * exists false, (m_gameState (g_game w)). rewrite with_own_gameState. reflexivity.
  - exists false, (m_gameState (g_game w)). rewrite with_own_gameState. reflexivity.
Qed.

(** X7: the method [isAttractMode] leaves the state untouched, so that
    repeated calls agree, and its boolean is the one the property
    [attractMode] reads, true exactly when [gameState] reads "ATTRACT". *)
Theorem isAttractMode_agrees (engine : Engine) (w : World) :
  exists b,
    CallMethod engine "isAttractMode" [] w = Returned (Success (Some (VBool b))) w
    /\ GetProperty "attractMode" w = Some (VBool b)
    /\ (b = true <-> GetProperty "gameState" w = Some (VString "ATTRACT")).
Proof.
  exists (Game.IsAttractMode w). split; [reflexivity |]. split; [reflexivity |].
  unfold GetProperty, Game.IsAttractMode, Game.GetGameState. cbn.
  destruct (m_gameState (g_game w)); split; try reflexivity; discriminate.
Qed.

(** X8: [appRequestQuit] returns Success without a value and sets the quit
    flag, changing nothing else; requested again, it changes nothing. *)
Theorem appRequestQuit_sets_the_flag (engine : Engine) (w : World) :
  CallMethod engine "appRequestQuit" [] w = Returned (Success None) (set_isQuitting true w)
  /\ m_isQuitting (set_isQuitting true w) = true
  /\ g_game (set_isQuitting true w) = g_game w
  /\ CallMethod engine "appRequestQuit" [] (set_isQuitting true w)
     = Returned (Success None) (set_isQuitting true w).
Proof. repeat split. Qed.

(** X9: [getPlayerPosition] never changes the state; without a player it
    returns the Error "玩家物件不存在", and with one it returns Success with
    the position written as an object literal of three six-decimal
    numbers. *)
Theorem getPlayerPosition_reads (engine : Engine) (w : World) :
  (m_player (g_game w) = None ->
   CallMethod engine "getPlayerPosition" [] w = Returned (Error "玩家物件不存在") w)
  /\ (forall player, m_player (g_game w) = Some player ->
        CallMethod engine "getPlayerPosition" [] w
        = Returned (Success (Some (VString
                     ("{ x: " ++ to_string (x (Player_position player))
                      ++ ", y: " ++ to_string (y (Player_position player))
                      ++ ", z: " ++ to_string (z (Player_position player)) ++ " }")))) w).
Proof.
  split.
  - intro H. unfold CallMethod, ExecuteGetPlayerPosition, Game.GetPlayer.
    run_monad. rewrite H. reflexivity.
  - intros player H. unfold CallMethod, ExecuteGetPlayerPosition, Game.GetPlayer.
    run_monad. rewrite H. reflexivity.
Qed.

Lemma getPlayerPosition_reads_witness :
  CallMethod quiet_engine "getPlayerPosition" []
             (set_game (Game_set_player None Game.constructed) running_world)
  = Returned (Error "玩家物件不存在")
             (set_game (Game_set_player None Game.constructed) running_world)
  /\ CallMethod quiet_engine "getPlayerPosition" [] running_world
     = Returned (Success (Some (VString "{ x: -2.000000, y: 0.000000, z: 1.000000 }")))
                running_world.
Proof.
  split.
  - apply (getPlayerPosition_reads
             quiet_engine (set_game (Game_set_player None Game.constructed) running_world)).
    reflexivity.
  - apply (proj2 (getPlayerPosition_reads quiet_engine running_world)
                 (mkPlayer (Entity_set_position (mkVec3 (-2) 0 1) Entity_new))).
    reflexivity.
Defined.

(** X10: without a player, [movePlayerCamera] with three numbers still
    returns Success, with the offset echoed, but moves nothing and latches
    nothing: the state is untouched. *)
Theorem movePlayerCamera_without_player
        (engine : Engine) (dx dy dz : float) (w : World) :
  m_player (g_game w) = None ->
  Game.MovePlayerCamera (mkVec3 dx dy dz) w = Returned tt w
  /\ CallMethod engine "movePlayerCamera" [VNumber dx; VNumber dy; VNumber dz] w
     = Returned (Success (Some (VString
                  ("相機位置已移動: (" ++ to_string dx ++ ", " ++ to_string dy ++ ", "
                   ++ to_string dz ++ ")")))) w.
Proof.
  intro H.
  assert (Hmove : Game.MovePlayerCamera (mkVec3 dx dy dz) w = Returned tt w).
  { unfold Game.MovePlayerCamera. run_monad. rewrite H. reflexivity. }
  split; [exact Hmove |].
  unfold CallMethod, ExecuteMovePlayerCamera. run_monad. rewrite Hmove. reflexivity.
Qed.

Lemma movePlayerCamera_without_player_witness :
  CallMethod quiet_engine "movePlayerCamera" [VNumber 1; VNumber 0; VNumber 0]
             (set_game (Game_set_player None Game.constructed) running_world)
  = Returned (Success (Some (VString "相機位置已移動: (1.000000, 0.000000, 0.000000)")))
             (set_game (Game_set_player None Game.constructed) running_world).
Proof.
  apply (movePlayerCamera_without_player
           quiet_engine 1 0 0
           (set_game (Game_set_player None Game.constructed) running_world)).
  reflexivity.
Defined.

(** ** Scripts run from native code *)

(** X11: asked to run a command while the script runtime is missing or not
    initialized, [executeCommand] does not reach the engine: it writes one
    error line to the log, changes nothing else, and still returns Success
    with the command echoed. *)
Theorem executeCommand_without_runtime (engine : Engine) (command : string) (w : World) :
  Game.script_ready w = false ->
  exists line,
    log_verbosity line = VerbosityError
    /\ Game.ExecuteJavaScriptCommand engine command w = Returned tt (add_logOutput line w)
    /\ CallMethod engine "executeCommand" [VString command] w
       = Returned (Success (Some (VString ("指令執行: " ++ command)))) (add_logOutput line w).
Proof.
  intro Hready. unfold Game.script_ready in Hready.
  unfold CallMethod, ExecuteJavaScriptCommand, Game.ExecuteJavaScriptCommand.
  run_monad.
  destruct (g_scriptSubsystem w) as [scripts |].
  - rewrite Hready. run_monad.
    eexists. split; [| split; reflexivity]. reflexivity.
  - run_monad. eexists. split; [| split; reflexivity]. reflexivity.
Qed.

Lemma executeCommand_without_runtime_witness :
  exists line,
    log_verbosity line = VerbosityError
    /\ Game.ExecuteJavaScriptCommand failing_engine "1 + 1" scriptless_world
       = Returned tt (add_logOutput line scriptless_world)
    /\ CallMethod failing_engine "executeCommand" [VString "1 + 1"] scriptless_world
       = Returned (Success (Some (VString "指令執行: 1 + 1"))) (add_logOutput line scriptless_world).
Proof.
  apply (executeCommand_without_runtime failing_engine "1 + 1" scriptless_world).
  reflexivity.
Defined.

Lemma executeFile_dies (engine : Engine) (filename : string) (w : World) :
  Game.script_ready w = false ->
  exists diagnostic, Game.ExecuteJavaScriptFile engine filename w = Died diagnostic.
Proof.
  intro Hready. unfold Game.script_ready in Hready.
  unfold Game.ExecuteJavaScriptFile. run_monad.
  destruct (g_scriptSubsystem w) as [scripts |].
  - rewrite Hready. eexists. reflexivity.
  - eexists. reflexivity.
Qed.

(** X12: asked to run a file while the script runtime is missing or not
    initialized, [executeFile] ends the process: [Game::ExecuteJavaScriptFile]
    dies before it reaches the engine, and the handlers of [CallMethod] do
    not turn that into an Error. *)
Theorem executeFile_without_runtime (engine : Engine) (filename : string) (w : World) :
  Game.script_ready w = false ->
  exists diagnostic,
    Game.ExecuteJavaScriptFile engine filename w = Died diagnostic
    /\ CallMethod engine "executeFile" [VString filename] w = Died diagnostic.
Proof.
  intro Hready. unfold Game.script_ready in Hready.
  unfold CallMethod, ExecuteJavaScriptFile, Game.ExecuteJavaScriptFile.
  run_monad.
  destruct (g_scriptSubsystem w) as [scripts |].
  - rewrite Hready. eexists. split; reflexivity.
  - eexists. split; reflexivity.
Qed.

Lemma executeFile_without_runtime_witness :
  exists diagnostic,
    Game.ExecuteJavaScriptFile quiet_engine "Data/Scripts/main.js" scriptless_world
    = Died diagnostic
    /\ CallMethod quiet_engine "executeFile" [VString "Data/Scripts/main.js"] scriptless_world
       = Died diagnostic.
Proof.
  apply (executeFile_without_runtime quiet_engine "Data/Scripts/main.js" scriptless_world).
  reflexivity.
Defined.

(** X13: [executeCommand] reports Success whether or not the script ran
    well: when the runtime is started and the engine returns from the script,
    with true or with false, the result is the Success that echoes the
    command; only a [std::exception] thrown by the engine gives an Error,
    which carries its text. *)
Theorem executeCommand_reports_success
        (engine : Engine) (command : string) (w : World) :
  Game.script_ready w = true ->
  (forall ok w1 scripts,
     ExecuteScript engine command w = Returned ok w1 ->
     g_scriptSubsystem w1 = Some scripts ->
     exists w',
       CallMethod engine "executeCommand" [VString command] w
       = Returned (Success (Some (VString ("指令執行: " ++ command)))) w'
       /\ g_game w' = g_game w1
       /\ debuggerOutput w' = debuggerOutput w1)
  /\ (forall what w1,
        ExecuteScript engine command w = Thrown what w1 ->
        CallMethod engine "executeCommand" [VString command] w
        = Returned (Error ("執行 JavaScript 指令失敗: " ++ what)) w1).
Proof.
  intro Hready. unfold Game.script_ready in Hready.
  destruct (g_scriptSubsystem w) as [s0 |] eqn:Hs0; [| discriminate Hready].
  split.
  - intros ok w1 scripts Hrun Hscripts.
    unfold CallMethod, ExecuteJavaScriptCommand, Game.ExecuteJavaScriptCommand.
    run_monad. rewrite Hs0, Hready. run_monad. rewrite Hrun.
    destruct ok; run_monad; rewrite Hscripts; run_monad.
    + destruct (String.eqb (GetLastResult scripts) ""); run_monad;
        eexists; repeat split.
    + destruct (HasError scripts); run_monad; eexists; repeat split.
  - intros what w1 Hrun.
    unfold CallMethod, ExecuteJavaScriptCommand, Game.ExecuteJavaScriptCommand.
    run_monad. rewrite Hs0, Hready. run_monad. rewrite Hrun. reflexivity.
Qed.

(** An engine whose script runtime fails every script without throwing. *)
Lemma executeCommand_reports_success_witness :
  (exists w',
     CallMethod (mkEngine (fun _ => ret false) (fun _ => ret false)
                          (fun _ _ => ret tt) (ret tt))
                "executeCommand" [VString "syntax error ("] running_world
     = Returned (Success (Some (VString "指令執行: syntax error ("))) w'
     /\ g_game w' = g_game running_world
     /\ debuggerOutput w' = debuggerOutput running_world)
  /\ CallMethod failing_engine "executeCommand" [VString "1 + 1"] running_world
     = Returned (Error "執行 JavaScript 指令失敗: script runtime failure") running_world.
Proof.
  split.
  - apply (proj1 (executeCommand_reports_success
                    (mkEngine (fun _ => ret false) (fun _ => ret false)
                              (fun _ _ => ret tt) (ret tt))
                    "syntax error (" running_world eq_refl)
                 false running_world started_scripts); reflexivity.
  - apply (proj2 (executeCommand_reports_success failing_engine "1 + 1" running_world eq_refl)
                 "script runtime failure" running_world).
    reflexivity.
Defined.

(** ** Sequences of native calls *)

Lemma update_at_last {A : Type} (f : A -> A) (l : list A) (c : A) :
  update_at (length l) f (l ++ [c]) = (l ++ [f c])%list.
Proof.
  induction l as [| h t IH]; cbn.
  - reflexivity.
  - rewrite IH. reflexivity.
Qed.

Lemma CreateCube_returns (position : Vec3) (w : World) :
  exists cube w',
    Game.CreateCube position w = Returned tt w'
    /\ m_props (g_game w') = (m_props (g_game w) ++ [cube])%list
    /\ Prop_position cube = position
    /\ m_vertexes cube = [CubeVerts]
    /\ m_isQuitting w' = m_isQuitting w.
Proof.
  unfold Game.CreateCube. run_monad. eexists _, _. split; [reflexivity |].
  cbn. repeat split.
Qed.

(** X14: a cube just created is the last prop, so that moving the prop
    whose index is the former number of props moves that cube: after
    [CreateCube] and then [MoveProp] with that index, the props are the
    former ones, unchanged, followed by one cube at the new position. *)
Theorem created_cube_can_be_moved (w : World) (position newPosition : Vec3) :
  Z.of_nat (length (m_props (g_game w))) < 2 ^ 31 - 1 ->
  exists cube w',
    (Game.CreateCube position ;;
     Game.MoveProp (Z.of_nat (length (m_props (g_game w)))) newPosition) w
    = Returned tt w'
    /\ m_props (g_game w') = (m_props (g_game w) ++ [cube])%list
    /\ Prop_position cube = newPosition
    /\ m_vertexes cube = [CubeVerts].
Proof.
  intro Hsize.
  destruct (CreateCube_returns position w) as [cube [w1 [Hcreate [Hprops [_ [Hverts _]]]]]].
  cbn [bind Monad_M]. rewrite Hcreate.
  unfold Game.MoveProp. cbn [bind get put Monad_M MonadState_M].
  assert (Hlen : length (m_props (g_game w1)) = S (length (m_props (g_game w)))).
  { rewrite Hprops, length_app. cbn. lia. }
  assert (Hguard : (0 <=? Z.of_nat (length (m_props (g_game w))))
                   && (Z.of_nat (length (m_props (g_game w)))
                       <? wrap32 (Z.of_nat (length (m_props (g_game w1))))) = true).
  { rewrite wrap32_small by lia. apply andb_true_iff. split.
    - apply Z.leb_le. lia.
    - apply Z.ltb_lt. lia. }
  rewrite Hguard. eexists _, _. split; [reflexivity |].
  cbn [g_game set_game add_logOutput Game_set_props m_props].
  unfold Game.set_prop_position. rewrite Nat2Z.id, Hprops, update_at_last.
  split; [reflexivity |]. split; [reflexivity | exact Hverts].
Qed.

Lemma created_cube_can_be_moved_witness :
  exists cube w',
    (Game.CreateCube (mkVec3 1 2 3) ;; Game.MoveProp 4 (mkVec3 0 0 5)) running_world
    = Returned tt w'
    /\ m_props (g_game w') = (m_props (g_game running_world) ++ [cube])%list
    /\ Prop_position cube = mkVec3 0 0 5
    /\ m_vertexes cube = [CubeVerts].
Proof.
  apply (created_cube_can_be_moved running_world (mkVec3 1 2 3) (mkVec3 0 0 5)).
  cbn. lia.
Defined.

Lemma MoveProp_returns (propIndex : Z) (newPosition : Vec3) (w : World) :
  exists w',
    Game.MoveProp propIndex newPosition w = Returned tt w'
    /\ length (m_props (g_game w')) = length (m_props (g_game w))
    /\ m_isQuitting w' = m_isQuitting w.
Proof.
  unfold Game.MoveProp. cbn [bind get put Monad_M MonadState_M].
  destruct ((0 <=? propIndex)
            && (propIndex <? wrap32 (Z.of_nat (length (m_props (g_game w))))));
    (eexists; split; [reflexivity |]); cbn; split; try reflexivity.
  unfold Game.set_prop_position. apply update_at_length.
Qed.

Lemma MovePlayerCamera_returns (offset : Vec3) (w : World) :
  exists w',
    Game.MovePlayerCamera offset w = Returned tt w'
    /\ m_props (g_game w') = m_props (g_game w)
    /\ m_isQuitting w' = m_isQuitting w.
Proof.
  unfold Game.MovePlayerCamera. cbn [bind get put Monad_M MonadState_M].
  destruct (m_player (g_game w)) as [player |].
  - destruct (m_cameraShakeActive (g_game w)); cbn;
      (eexists; split; [reflexivity |]); cbn; split; reflexivity.
  - exists w. repeat split.
Qed.

(** X15: a script made of [CreateCube], [MoveProp], [SetGameState] and
    [MovePlayerCamera] calls, whatever their arguments, runs to its end;
    afterwards the game has as many props more as cubes were created, no
    call having removed one, and the quit flag is what it was. *)
Theorem run_calls_count_props (cs : list NativeCall) :
  forall w,
    exists w',
      run_calls cs w = Returned tt w'
      /\ length (m_props (g_game w')) = (length (m_props (g_game w)) + cubes_created cs)%nat
      /\ m_isQuitting w' = m_isQuitting w.
Proof.
  induction cs as [| c later IH]; intro w.
  - exists w. cbn. rewrite Nat.add_0_r. repeat split.
  - assert (Hcall : exists w1,
               run_call c w = Returned tt w1
               /\ length (m_props (g_game w1))
                  = (length (m_props (g_game w))
                     + match c with DoCreateCube _ => 1 | _ => 0 end)%nat
               /\ m_isQuitting w1 = m_isQuitting w).
    { destruct c as [pos | i pos | s | offset]; cbn [run_call].
      - destruct (CreateCube_returns pos w) as [cube [w1 [Hrun [Hprops [_ [_ Hquit]]]]]].
        exists w1. split; [exact Hrun |]. split; [| exact Hquit].
        rewrite Hprops, length_app. reflexivity.
      - destruct (MoveProp_returns i pos w) as [w1 [Hrun [Hlen Hquit]]].
        exists w1. rewrite Hlen, Nat.add_0_r. repeat split; assumption.
      - eexists. split; [reflexivity |]. cbn. rewrite Nat.add_0_r. split; reflexivity.
      - destruct (MovePlayerCamera_returns offset w) as [w1 [Hrun [Hprops Hquit]]].
        exists w1. rewrite Hprops, Nat.add_0_r. repeat split; assumption. }
    destruct Hcall as [w1 [Hrun1 [Hlen1 Hquit1]]].
    destruct (IH w1) as [w' [Hrun' [Hlen' Hquit']]].
    exists w'. split; [| split].
    + cbn [run_calls bind Monad_M]. rewrite Hrun1. exact Hrun'.
    + rewrite Hlen', Hlen1. destruct c; cbn [cubes_created]; lia.
    + congruence.
Qed.

(** ** Starting the script framework *)

(** X16: [Game::InitializeJavaScriptFramework] never lets an exception out,
    of whatever type: its handler is [catch (...)].
    Without a started script runtime it writes its start line and one error
    line to the log and does nothing else, whatever the engine; with one, it
    returns provided the engine's module loader does not end the process and
    does not drop the script subsystem when it reports failure: the fatal
    guards of [Game::ExecuteModuleFile] are never met on this path. *)
Theorem InitializeJavaScriptFramework_is_safe (runtime : ScriptRuntime) (w : World) :
  (forall what w', GameScripts.InitializeJavaScriptFramework runtime w <> Thrown what w')
  /\ (forall w', GameScripts.InitializeJavaScriptFramework runtime w <> ThrownOther w')
  /\ (Game.script_ready w = false ->
      GameScripts.InitializeJavaScriptFramework runtime w
      = Returned tt
          (add_logOutput
             (mkLogLine "LogGame" VerbosityError
                "Game::InitializeJavaScriptFramework() failed - ScriptSubsystem not available")
             (add_logOutput
                (mkLogLine "LogGame" VerbosityDisplay
                   "Game::InitializeJavaScriptFramework() start") w)))
  /\ ((forall path w1 d, ExecuteModule runtime path w1 <> Died d) ->
      (forall path w1 w2,
         ExecuteModule runtime path w1 = Returned false w2 -> g_scriptSubsystem w2 <> None) ->
      exists w', GameScripts.InitializeJavaScriptFramework runtime w = Returned tt w').
Proof.
  split; [| split; [| split]].
  - intros what w'. unfold GameScripts.InitializeJavaScriptFramework.
    cbn [bind get put Monad_M MonadState_M DAEMON_LOG update_world].
    destruct (negb (Game.script_ready _)); [discriminate |].
    apply catch_all_never_throws; intros; discriminate.
  - intros w'. unfold GameScripts.InitializeJavaScriptFramework.
    cbn [bind get put Monad_M MonadState_M DAEMON_LOG update_world].
    destruct (negb (Game.script_ready _)); [discriminate |].
    apply catch_all_never_throws; intros; discriminate.
  - intro Hready. unfold GameScripts.InitializeJavaScriptFramework.
    cbn [bind get put Monad_M MonadState_M DAEMON_LOG update_world].
    change (Game.script_ready (add_logOutput _ w)) with (Game.script_ready w).
    rewrite Hready. reflexivity.
  - intros Halive Hkept. unfold GameScripts.InitializeJavaScriptFramework.
    cbn [bind get put Monad_M MonadState_M DAEMON_LOG update_world].
    change (Game.script_ready (add_logOutput _ w)) with (Game.script_ready w).
    destruct (Game.script_ready w) eqn:Hready; cbn [negb]; [| eexists; reflexivity].
    unfold Game.script_ready in Hready.
    destruct (g_scriptSubsystem w) as [scripts |] eqn:Hscripts; [| discriminate Hready].
    unfold catch_all, GameScripts.ExecuteModuleFile.
    cbn [bind get put catch_all Monad_M MonadState_M DAEMON_LOG update_world
         g_scriptSubsystem add_logOutput].
    rewrite Hscripts, Hready.
    cbn [negb bind get put catch_all Monad_M MonadState_M DAEMON_LOG update_world
         g_scriptSubsystem add_logOutput].
    match goal with
    | |- context [ExecuteModule runtime ?p ?w0] =>
        destruct (ExecuteModule runtime p w0) as [ok w2 | e w2 | w2 | d] eqn:Hrun
    end.
    + destruct ok;
        cbn [negb bind get put catch_all Monad_M MonadState_M DAEMON_LOG
             update_world g_scriptSubsystem add_logOutput deref ret];
        [eexists; reflexivity |].
      destruct (g_scriptSubsystem w2) as [s2 |] eqn:Hs2.
      * cbn [deref bind ret Monad_M].
        destruct (HasError s2);
          cbn [bind get put ret Monad_M MonadState_M DAEMON_LOG update_world];
          eexists; reflexivity.
      * exfalso. exact (Hkept _ _ _ Hrun Hs2).
    + eexists. reflexivity.
    + eexists. reflexivity.
    + exfalso. exact (Halive _ _ _ Hrun).
Qed.

Lemma InitializeJavaScriptFramework_is_safe_witness :
  GameScripts.InitializeJavaScriptFramework quiet_runtime scriptless_world
  = Returned tt
      (add_logOutput
         (mkLogLine "LogGame" VerbosityError
            "Game::InitializeJavaScriptFramework() failed - ScriptSubsystem not available")
         (add_logOutput
            (mkLogLine "LogGame" VerbosityDisplay
               "Game::InitializeJavaScriptFramework() start") scriptless_world))
  /\ exists w', GameScripts.InitializeJavaScriptFramework quiet_runtime running_world
                = Returned tt w'.
Proof.
  split.
  - apply (proj1 (proj2 (proj2
      (InitializeJavaScriptFramework_is_safe quiet_runtime scriptless_world)))).
    reflexivity.
  - apply (proj2 (proj2 (proj2
      (InitializeJavaScriptFramework_is_safe quiet_runtime running_world)))).
    + intros path w1 d. discriminate.
    + intros path w1 w2 H. discriminate H.
Defined.

(** ** Files run for the debugger *)

Lemma find_last_of_app_none (set : list ascii) (s t : string) :
  find_last_of set t = None -> find_last_of set (s ++ t) = find_last_of set s.
Proof.
  intro H. induction s as [| c s IH]; cbn.
  - exact H.
  - rewrite IH. reflexivity.
Qed.

Lemma find_last_of_cut (set : list ascii) (s : string) (c : ascii) (t : string) :
  existsb (Ascii.eqb c) set = true ->
  find_last_of set t = None ->
  find_last_of set (s ++ String c t) = Some (String.length s).
Proof.
  intros Hc Ht. induction s as [| d s IH]; cbn.
  - rewrite Ht, Hc. reflexivity.
  - rewrite IH. reflexivity.
Qed.

Lemma find_last_of_split (set : list ascii) (s : string) :
  forall i, find_last_of set s = Some i ->
    exists dir c name,
      s = dir ++ String c name
      /\ String.length dir = i
      /\ existsb (Ascii.eqb c) set = true
      /\ find_last_of set name = None.
Proof.
  induction s as [| d s IH]; intros i H; cbn in H; [discriminate H |].
  destruct (find_last_of set s) as [j |] eqn:Hs.
  - injection H as <-. destruct (IH j eq_refl) as [dir [c [name [-> [Hlen [Hc Hname]]]]]].
    exists (String d dir), c, name. cbn. rewrite Hlen. repeat split; assumption.
  - destruct (existsb (Ascii.eqb d) set) eqn:Hd; [| discriminate H].
    injection H as <-. exists "", d, s. repeat split; assumption.
Qed.

Lemma substring_all (s : string) : String.substring 0 (String.length s) s = s.
Proof.
  induction s as [| c s IH]; cbn.
  - reflexivity.
  - rewrite IH. reflexivity.
Qed.

Lemma substr_after (dir : string) (c : ascii) (name : string) :
  substr (String.length dir + 1) (dir ++ String c name) = name.
Proof.
  unfold substr. induction dir as [| d dir IH]; cbn.
  - rewrite Nat.sub_0_r. apply substring_all.
  - exact IH.
Qed.

(** X17: the name under which a file is registered for the debugger is the
    part of its path after the last slash or backslash: it holds neither
    character, the path is a directory part followed by it, and a path
    that is a directory part, a slash or a backslash, and a name free of
    both gives that name; a path free of both is its own name. *)
Theorem script_name_is_the_file_name (filename : string) :
  find_last_of separators (GameScripts.script_name filename) = None
  /\ (exists dir, filename = dir ++ GameScripts.script_name filename)
  /\ (find_last_of separators filename = None -> GameScripts.script_name filename = filename)
  /\ (forall dir name,
        find_last_of separators name = None ->
        GameScripts.script_name (dir ++ "/" ++ name) = name
        /\ GameScripts.script_name (dir ++ "\" ++ name) = name).
Proof.
  assert (Hcut : forall dir c name,
             existsb (Ascii.eqb c) separators = true ->
             find_last_of separators name = None ->
             GameScripts.script_name (dir ++ String c name) = name).
  { intros dir c name Hc Hname. unfold GameScripts.script_name.
    rewrite (find_last_of_cut separators dir c name Hc Hname). apply substr_after. }
  split; [| split; [| split]].
  - destruct (find_last_of separators filename) as [i |] eqn:Hfind.
    + destruct (find_last_of_split separators filename i Hfind)
        as [dir [c [name [-> [_ [Hc Hname]]]]]].
      rewrite (Hcut dir c name Hc Hname). exact Hname.
    + unfold GameScripts.script_name.
      rewrite Hfind. exact Hfind.
  - destruct (find_last_of separators filename) as [i |] eqn:Hfind.
    + destruct (find_last_of_split separators filename i Hfind)
        as [dir [c [name [-> [_ [Hc Hname]]]]]].
      rewrite (Hcut dir c name Hc Hname). exists (dir ++ String c ""%string).
      clear. induction dir as [| d dir IH]; cbn; [reflexivity | rewrite <- IH; reflexivity].
    + exists "". unfold GameScripts.script_name.
      rewrite Hfind. reflexivity.
  - intro Hfind. unfold GameScripts.script_name.
    rewrite Hfind. reflexivity.
  - intros dir name Hname. split; apply Hcut; try exact Hname; reflexivity.
Qed.

Lemma script_name_is_the_file_name_witness :
  GameScripts.script_name "Data/Scripts/F1_KeyHandler.js" = "F1_KeyHandler.js"
  /\ GameScripts.script_name "C:\p4\main.mjs" = "main.mjs"
  /\ GameScripts.script_name "main.mjs" = "main.mjs".
Proof.
  split; [| split].
  - apply (proj2 (proj2 (proj2 (script_name_is_the_file_name "")))
                 "Data/Scripts" "F1_KeyHandler.js").
    reflexivity.
  - apply (proj2 (proj2 (proj2 (script_name_is_the_file_name "")))
                 "C:\p4" "main.mjs").
    reflexivity.
  - apply (proj1 (proj2 (proj2 (script_name_is_the_file_name "main.mjs")))).
    reflexivity.
Defined.



(** ** Input *)

(** X19: when none of the keys J, K, L, F2 and F3 is active,
    [Game::HandleJavaScriptCommands] does nothing, whatever the engine; and
    when J was just pressed while the script runtime is missing or not
    initialized, it ends the process. *)
Theorem HandleJavaScriptCommands_keys
        (engine : Engine) (runtime : ScriptRuntime) (files : FileSystem)
        (input : InputSystem) (w : World) :
  (WasKeyJustPressed input KEYCODE_J = false ->
   IsKeyDown input KEY_K = false ->
   WasKeyJustPressed input KEY_L = false ->
   WasKeyJustPressed input VK_F2 = false ->
   WasKeyJustPressed input VK_F3 = false ->
   GameScripts.HandleJavaScriptCommands engine runtime files input w = Returned tt w)
  /\ (WasKeyJustPressed input KEYCODE_J = true ->
      Game.script_ready w = false ->
      exists diagnostic,
        GameScripts.HandleJavaScriptCommands engine runtime files input w = Died diagnostic).
Proof.
  split.
  - intros HJ HK HL HF2 HF3. unfold GameScripts.HandleJavaScriptCommands.
    rewrite HJ, HK, HL, HF2, HF3. reflexivity.
  - intros HJ Hready. unfold GameScripts.HandleJavaScriptCommands.
    rewrite HJ. cbn [bind Monad_M].
    destruct (executeFile_dies engine "Data/Scripts/test_scripts.js" w Hready) as [d Hd].
    rewrite Hd. exists d. reflexivity.
Qed.

Lemma HandleJavaScriptCommands_keys_witness :
  GameScripts.HandleJavaScriptCommands
    failing_engine quiet_runtime no_files
    (mkInputSystem (fun _ => false) (fun _ => false)) running_world
  = Returned tt running_world
  /\ exists diagnostic,
       GameScripts.HandleJavaScriptCommands
         quiet_engine quiet_runtime no_files
         (mkInputSystem (fun _ => true) (fun _ => false)) scriptless_world
       = Died diagnostic.
Proof.
  split.
  - apply (HandleJavaScriptCommands_keys
             failing_engine quiet_runtime no_files
             (mkInputSystem (fun _ => false) (fun _ => false)) running_world);
      reflexivity.
  - apply (HandleJavaScriptCommands_keys
             quiet_engine quiet_runtime no_files
             (mkInputSystem (fun _ => true) (fun _ => false)) scriptless_world);
      reflexivity.
Defined.

(** X20: [Game::UpdateFromController] always returns and changes nothing
    but the game state and the quit flag.  The quit flag is raised exactly
    when the game was in attract mode and Back was just pressed, and is
    never lowered.  If Back was just pressed the game ends the call in
    attract mode, whatever else was pressed; otherwise it ends in the game
    state when it was there or Start was just pressed, and in attract mode
    if not.  A game that was in attract mode and saw no Start makes no call
    on the clock; any other makes, in this order, the calls that B, Y, X
    pressed and X released ask for, even in the frame in which Back takes it
    to attract mode. *)
Theorem UpdateFromController_transitions (controller : XboxController) (w : World) :
  let back := WasButtonJustPressed controller XBOX_BUTTON_BACK in
  let start := WasButtonJustPressed controller XBOX_BUTTON_START in
  let attract := Game.IsAttractMode w in
  GameScripts.UpdateFromController controller w
  = Returned
      (if attract && negb start then []
       else ((if WasButtonJustPressed controller XBOX_BUTTON_B then [TogglePause] else [])
             ++ (if WasButtonJustPressed controller XBOX_BUTTON_Y
                 then [StepSingleFrame] else [])
             ++ (if WasButtonJustPressed controller XBOX_BUTTON_X
                 then [SetTimeScale (1 # 10)] else [])
             ++ (if WasButtonJustReleased controller XBOX_BUTTON_X
                 then [SetTimeScale 1] else []))%list)
      (with_gameState (if back then ATTRACT
                       else if attract && negb start then ATTRACT else GAME)
         (set_isQuitting (m_isQuitting w || (attract && back)) w)).
Proof.
  intros back start attract. subst back start attract.
  unfold GameScripts.UpdateFromController, Game.IsAttractMode.
  destruct w as [[player props state origin active] scripts rng quitting gd sd dbg lg].
  cbn [bind get Monad_M MonadState_M g_game m_gameState m_isQuitting].
  destruct state;
    destruct (WasButtonJustPressed controller XBOX_BUTTON_BACK);
    destruct (WasButtonJustPressed controller XBOX_BUTTON_START);
    cbn; rewrite ?orb_true_r, ?orb_false_r; reflexivity.
Qed.

(** Back and Start pressed together in attract mode: quit is requested and
    the game, entered and left within the call, is in attract mode. *)
Example back_and_start_together :
  GameScripts.UpdateFromController
    (mkXboxController (fun _ => true) (fun _ => false)) running_world
  = Returned [TogglePause; StepSingleFrame; SetTimeScale (1 # 10)]
             (set_isQuitting true running_world).
Proof. reflexivity. Qed.

(** ** App *)

Lemma c_str_without_NUL (s : string) :
  ~ In (ascii_of_nat 0) (list_ascii_of_string s) -> c_str s = s.
Proof.
  induction s as [| c rest IH]; intro H; [reflexivity |].
  cbn [c_str]. destruct (Ascii.eqb c (ascii_of_nat 0)) eqn:Hc.
  - apply Ascii.eqb_eq in Hc. exfalso. apply H. left. exact Hc.
  - f_equal. apply IH. intro Hin. apply H. right. exact Hin.
Qed.

Lemma c_str_stops_at_NUL (head tail : string) :
  ~ In (ascii_of_nat 0) (list_ascii_of_string head) ->
  c_str (head ++ String (ascii_of_nat 0) tail) = head.
Proof.
  induction head as [| c rest IH]; intro H; [reflexivity |].
  cbn [append c_str]. destruct (Ascii.eqb c (ascii_of_nat 0)) eqn:Hc.
  - apply Ascii.eqb_eq in Hc. exfalso. apply H. left. exact Hc.
  - f_equal. apply IH. intro Hin. apply H. right. exact Hin.
Qed.

(** X21: [App::OnDebug] never throws and always returns the empty value.
    With no argument it does nothing; with a string first it writes, prefixed
    and as one line of debugger output, what [%s] prints of that string: the
    whole string when it holds no NUL, and otherwise the part before its first
    NUL; with anything else first it writes the line that says the object
    cannot be converted.  Arguments after the first are ignored, and nothing
    but the debugger output changes. *)
Theorem OnDebug_prints_first_argument (arg0 : ScriptValue) (others : list ScriptValue)
        (w : World) :
  AppFrame.OnDebug [] w = Returned None w
  /\ (forall message,
        arg0 = VString message ->
        AppFrame.OnDebug (arg0 :: others) w
        = Returned None
            (add_debuggerOutput ("JS DEBUG: " ++ c_str message ++ newline) w))
  /\ (forall message,
        arg0 = VString message ->
        ~ In (ascii_of_nat 0) (list_ascii_of_string message) ->
        AppFrame.OnDebug (arg0 :: others) w
        = Returned None (add_debuggerOutput ("JS DEBUG: " ++ message ++ newline) w))
  /\ (forall head tail,
        arg0 = VString (head ++ String (ascii_of_nat 0) tail) ->
        ~ In (ascii_of_nat 0) (list_ascii_of_string head) ->
        AppFrame.OnDebug (arg0 :: others) w
        = Returned None (add_debuggerOutput ("JS DEBUG: " ++ head ++ newline) w))
  /\ ((forall message, arg0 <> VString message) ->
      AppFrame.OnDebug (arg0 :: others) w
      = Returned None (add_debuggerOutput ("JS DEBUG: [無法轉換的物件]" ++ newline) w)).
Proof.
  split; [reflexivity | split; [| split; [| split]]].
  - intros message ->. reflexivity.
  - intros message -> Hclean.
    rewrite <- (c_str_without_NUL message Hclean) at 2. reflexivity.
  - intros head tail -> Hclean.
    rewrite <- (c_str_stops_at_NUL head tail Hclean) at 2. reflexivity.
  - intro H. destruct arg0; try reflexivity. contradiction (H s). reflexivity.
Qed.

Lemma OnDebug_prints_first_argument_witness :
  AppFrame.OnDebug [VString "Player Position"; VInt 7] running_world
  = Returned None (add_debuggerOutput ("JS DEBUG: Player Position" ++ newline) running_world)
  /\ AppFrame.OnDebug [VString ("cube" ++ String (ascii_of_nat 0) " moved")] running_world
     = Returned None (add_debuggerOutput ("JS DEBUG: cube" ++ newline) running_world)
  /\ AppFrame.OnDebug [VNumber 42] running_world
     = Returned None
         (add_debuggerOutput ("JS DEBUG: [無法轉換的物件]" ++ newline) running_world).
Proof.
  split; [| split].
  - apply (proj1 (proj2 (proj2 (OnDebug_prints_first_argument
                                  (VString "Player Position") [VInt 7] running_world)))
                 "Player Position" eq_refl).
    cbn. intuition discriminate.
  - apply (proj1 (proj2 (proj2 (proj2 (OnDebug_prints_first_argument
             (VString ("cube" ++ String (ascii_of_nat 0) " moved")) [] running_world))))
                 "cube" " moved" eq_refl).
    cbn. intuition discriminate.
  - apply (proj2 (proj2 (proj2 (proj2
             (OnDebug_prints_first_argument (VNumber 42) [] running_world))))).
    intros message H. discriminate H.
Defined.

Lemma RunMainLoop_ends_quitting
      (engine : Engine) (runtime : ScriptRuntime) (platform : Platform) (frames : nat) :
  forall w w',
    AppFrame.RunMainLoop engine runtime platform frames w = Returned true w' ->
    m_isQuitting w' = true.
Proof.
  induction frames as [| remaining IH]; intros w w' H;
    cbn [AppFrame.RunMainLoop bind get ret Monad_M MonadState_M] in H.
  - destruct (m_isQuitting w) eqn:Hq; [| discriminate H].
    injection H as <-. exact Hq.
  - destruct (m_isQuitting w) eqn:Hq.
    + injection H as <-. exact Hq.
    + destruct (AppFrame.RunFrame engine runtime platform w) as [[] w1 | e w1 | w1 | d];
        try discriminate H.
      apply (IH w1 w'). exact H.
Qed.

(** X22: [App::RunMainLoop] looks at the quit flag between frames only.
    If quit has been requested it runs no frame; a frame during which quit
    is requested is run to its end, and the loop ends right after it; and
    whenever the loop ends, the quit flag is up. *)
Theorem RunMainLoop_quits_between_frames
        (engine : Engine) (runtime : ScriptRuntime) (platform : Platform)
        (frames : nat) (w : World) :
  (m_isQuitting w = true ->
   AppFrame.RunMainLoop engine runtime platform frames w = Returned true w)
  /\ (forall w1,
        m_isQuitting w = false ->
        AppFrame.RunFrame engine runtime platform w = Returned tt w1 ->
        m_isQuitting w1 = true ->
        AppFrame.RunMainLoop engine runtime platform (S frames) w = Returned true w1)
  /\ (forall w',
        AppFrame.RunMainLoop engine runtime platform frames w = Returned true w' ->
        m_isQuitting w' = true).
Proof.
  split; [| split].
  - intro Hq. destruct frames;
      cbn [AppFrame.RunMainLoop bind get ret Monad_M MonadState_M]; rewrite Hq; reflexivity.
  - intros w1 Hq Hframe Hq1.
    cbn [AppFrame.RunMainLoop bind get Monad_M MonadState_M].
    rewrite Hq, Hframe.
    destruct frames;
      cbn [AppFrame.RunMainLoop bind get ret Monad_M MonadState_M]; rewrite Hq1; reflexivity.
  - intros w' H. exact (RunMainLoop_ends_quitting engine runtime platform frames w w' H).
Qed.

Lemma RunMainLoop_quits_between_frames_witness :
  AppFrame.RunMainLoop quiet_engine quiet_runtime quiet_platform 3
                       (set_isQuitting true running_world)
  = Returned true (set_isQuitting true running_world)
  /\ exists w1,
       AppFrame.RunFrame quitting_engine quiet_runtime quiet_platform running_world
       = Returned tt w1
       /\ AppFrame.RunMainLoop quitting_engine quiet_runtime quiet_platform 3 running_world
          = Returned true w1.
Proof.
  split.
  - apply (proj1 (RunMainLoop_quits_between_frames
                    quiet_engine quiet_runtime quiet_platform 3
                    (set_isQuitting true running_world))).
    reflexivity.
  - eexists. split; [reflexivity |].
    apply (proj1 (proj2 (RunMainLoop_quits_between_frames
                           quitting_engine quiet_runtime quiet_platform 2 running_world)));
      reflexivity.
Defined.

(** ** The update command *)

Lemma to_string_below_half_a_millionth (q : float) :
  (0 <= q)%Q -> (q < 1 # 2000000)%Q -> to_string q = "0.000000".
Proof.
  destruct q as [n d]. unfold Qle, Qlt. cbn [Qnum Qden]. intros Hlow Hhigh.
  unfold to_string, format_fixed, scaled_round. cbn [Qnum Qden].
  change (10 ^ Z.of_nat 6) with 1000000.
  assert (Hn : 0 <= n) by lia.
  rewrite Z.abs_eq by exact Hn.
  assert (Hsmall : 0 <= n * 1000000 < Z.pos d) by lia.
  rewrite (Z.div_small _ _ Hsmall), (Z.mod_small _ _ Hsmall).
  assert (Hlt : (2 * (n * 1000000) <? Z.pos d) = true) by (apply Z.ltb_lt; lia).
  rewrite Hlt.
  assert (Hsign : (n <? 0) = false) by (apply Z.ltb_ge; lia).
  rewrite Hsign. reflexivity.
Qed.

(** X23: [Game::UpdateJS] hands the two clock deltas to the script as text
    with six decimals, so that deltas from zero up to half a millionth of a
    second reach it as zero: with the runtime started, the command run is
    then [globalThis.JSEngine.update(0.000000, 0.000000);]. *)
Theorem UpdateJS_rounds_small_deltas (engine : Engine) (w : World) :
  Game.script_ready w = true ->
  (0 <= gameClockDelta w)%Q -> (gameClockDelta w < 1 # 2000000)%Q ->
  (0 <= systemClockDelta w)%Q -> (systemClockDelta w < 1 # 2000000)%Q ->
  Game.UpdateJS engine w
  = Game.ExecuteJavaScriptCommand engine "globalThis.JSEngine.update(0.000000, 0.000000);" w.
Proof.
  intros Hready Hg0 Hg1 Hs0 Hs1. unfold Game.UpdateJS.
  cbn [bind get Monad_M MonadState_M]. rewrite Hready.
  rewrite (to_string_below_half_a_millionth _ Hg0 Hg1).
  rewrite (to_string_below_half_a_millionth _ Hs0 Hs1).
  reflexivity.
Qed.

Lemma UpdateJS_rounds_small_deltas_witness :
  Game.UpdateJS quiet_engine
    (mkWorld Game.constructed (Some started_scripts) (mkRng Z.of_nat 0) false
             0 (1 # 4000000) [] [])
  = Game.ExecuteJavaScriptCommand
      quiet_engine "globalThis.JSEngine.update(0.000000, 0.000000);"
      (mkWorld Game.constructed (Some started_scripts) (mkRng Z.of_nat 0) false
               0 (1 # 4000000) [] []).
Proof.
  apply (UpdateJS_rounds_small_deltas
           quiet_engine
           (mkWorld Game.constructed (Some started_scripts) (mkRng Z.of_nat 0) false
                    0 (1 # 4000000) [] []));
    first [reflexivity | unfold Qle, Qlt; simpl; lia].
Defined.
